(** * yt-explorer: the search page component, embedded and verified

    The repository is a single React page component, present in two
    variants: [src/app/page.tsx] and [src/unnamed/part_000].  This file
    embeds the logic both variants carry (the readiness poll, the search
    handler, the URL formatter and the [disabled] attributes of the
    buttons) and proves the properties the specification states about
    them.

    Conventions of the embedding:
    - a React state cell [useState<T | null>] is a field of type
      [option T]; JavaScript truthiness of such a cell is [truthy];
    - a JavaScript object used as a dictionary (the form parameters, the
      request passed to the search client) is a [gmap string jsval];
      object spread is map union with the later keys winning;
    - a side effect (alert, console, the call to the external client) is
      an entry of an effect trace returned next to the new state;
    - [Date.now()] is an integer number of milliseconds, passed in
      explicitly. *)

From Stdlib Require Import ZArith String Ascii List Bool Lia.
From Stdlib Require Import DecimalString DecimalZ DecimalPos DecimalFacts.
From stdpp Require Import base option gmap strings list fin_maps.

Open Scope string_scope.
Open Scope list_scope.
Open Scope Z_scope.

(* ===================================================================== *)
(** * The platform: [Date] *)
(* ===================================================================== *)

(** The handler of [page.tsx] calls [new Date(ms).toISOString()].  The
    definitions below follow the abstract operations of ECMA-262
    (section "Date Objects"): time values are integers of milliseconds
    since 1970-01-01T00:00:00Z, a [Date] holds a time value of magnitude
    at most 8.64e15 or is invalid, and [toISOString] throws a
    [RangeError] on an invalid date. *)
Module JSDate.

Definition msPerDay : Z := 86400000.
Definition msPerHour : Z := 3600000.
Definition msPerMinute : Z := 60000.
Definition msPerSecond : Z := 1000.

Definition maxTime : Z := 8640000000000000.

(** [TimeClip]: [None] stands for [NaN], the invalid date. *)
Definition TimeClip (t : Z) : option Z :=
  if Z.abs t <=? maxTime then Some t else None.

Definition Day (t : Z) : Z := t / msPerDay.
Definition TimeWithinDay (t : Z) : Z := t mod msPerDay.

Definition DaysInYear (y : Z) : Z :=
  if negb (y mod 4 =? 0) then 365
  else if negb (y mod 100 =? 0) then 366
  else if negb (y mod 400 =? 0) then 365
  else 366.

Definition DayFromYear (y : Z) : Z :=
  365 * (y - 1970) + (y - 1969) / 4 - (y - 1901) / 100 + (y - 1601) / 400.

(** [YearFromTime t] is the largest [y] with [DayFromYear y <= Day t]
    (lemmas [YearFromDay_spec] and [YearFromDay_largest]); it is computed from the mean length
    of a Gregorian year, 146097/400 days, and one correction step. *)
Definition YearFromDay (d : Z) : Z :=
  let y := 1970 + (400 * d) / 146097 in
  if d <? DayFromYear y then y - 1
  else if DayFromYear (y + 1) <=? d then y + 1
  else y.

Definition YearFromTime (t : Z) : Z := YearFromDay (Day t).

Definition InLeapYear (t : Z) : Z :=
  if DaysInYear (YearFromTime t) =? 366 then 1 else 0.

Definition DayWithinYear (t : Z) : Z :=
  Day t - DayFromYear (YearFromTime t).

(** Number of days of the year before month [m] (0 = January). *)
Definition monthStart (leap m : Z) : Z :=
  match m with
  | 0 => 0
  | 1 => 31
  | 2 => 59 + leap
  | 3 => 90 + leap
  | 4 => 120 + leap
  | 5 => 151 + leap
  | 6 => 181 + leap
  | 7 => 212 + leap
  | 8 => 243 + leap
  | 9 => 273 + leap
  | 10 => 304 + leap
  | 11 => 334 + leap
  | _ => 365 + leap
  end.

Definition MonthFromTime (t : Z) : Z :=
  let d := DayWithinYear t in
  let l := InLeapYear t in
  if d <? 31 then 0
  else if d <? 59 + l then 1
  else if d <? 90 + l then 2
  else if d <? 120 + l then 3
  else if d <? 151 + l then 4
  else if d <? 181 + l then 5
  else if d <? 212 + l then 6
  else if d <? 243 + l then 7
  else if d <? 273 + l then 8
  else if d <? 304 + l then 9
  else if d <? 334 + l then 10
  else 11.

Definition DateFromTime (t : Z) : Z :=
  DayWithinYear t - monthStart (InLeapYear t) (MonthFromTime t) + 1.

Definition HourFromTime (t : Z) : Z := (t / msPerHour) mod 24.
Definition MinFromTime (t : Z) : Z := (t / msPerMinute) mod 60.
Definition SecFromTime (t : Z) : Z := (t / msPerSecond) mod 60.
Definition msFromTime (t : Z) : Z := t mod msPerSecond.

(** ** Decimal fields *)

Definition digit_char (n : Z) : ascii :=
  ascii_of_nat (48 + Z.to_nat (n mod 10)).

(** [pad_digits k n rest]: the [k] low decimal digits of [n], most
    significant first, in front of [rest]. *)
Fixpoint pad_digits (k : nat) (n : Z) (rest : string) : string :=
  match k with
  | O => rest
  | S k' => pad_digits k' (n / 10) (String (digit_char n) rest)
  end.

Definition year_field (y : Z) (rest : string) : string :=
  if (0 <=? y) && (y <=? 9999) then pad_digits 4 y rest
  else if 0 <=? y then String "+" (pad_digits 6 y rest)
  else String "-" (pad_digits 6 (- y) rest).

(** The string [YYYY-MM-DDTHH:mm:ss.sssZ] (with a signed six-digit
    year outside 0..9999) of a valid time value. *)
Definition iso_of_time (t : Z) : string :=
  year_field (YearFromTime t)
    (String "-" (pad_digits 2 (MonthFromTime t + 1)
    (String "-" (pad_digits 2 (DateFromTime t)
    (String "T" (pad_digits 2 (HourFromTime t)
    (String ":" (pad_digits 2 (MinFromTime t)
    (String ":" (pad_digits 2 (SecFromTime t)
    (String "." (pad_digits 3 (msFromTime t) "Z")))))))))))).

(** [new Date(v).toISOString()]; [None] is the [RangeError]. *)
Definition toISOString (v : Z) : option string :=
  match TimeClip v with
  | Some t => Some (iso_of_time t)
  | None => None
  end.

(** ** Reading an ISO-8601 timestamp

    The instant a timestamp string denotes, written from the format
    itself (calendar date, [T], time of day, optional fraction of
    three digits, [Z]): the fields are read left to right, checked
    against the calendar and converted with [MakeDay]/[MakeTime]. *)

Definition digit_val (c : ascii) : option Z :=
  let n := Z.of_nat (nat_of_ascii c) in
  if (48 <=? n) && (n <=? 57) then Some (n - 48) else None.

Fixpoint read_digits (k : nat) (acc : Z) (s : string) : option (Z * string) :=
  match k with
  | O => Some (acc, s)
  | S k' =>
      match s with
      | String c s' =>
          match digit_val c with
          | Some d => read_digits k' (10 * acc + d) s'
          | None => None
          end
      | EmptyString => None
      end
  end.

Definition expect (c : ascii) (s : string) : option string :=
  match s with
  | String c' s' => if Ascii.eqb c c' then Some s' else None
  | EmptyString => None
  end.

Definition read_year (s : string) : option (Z * string) :=
  match s with
  | String c s' =>
      if Ascii.eqb c "+" then read_digits 6 0 s'
      else if Ascii.eqb c "-" then
        match read_digits 6 0 s' with
        | Some (y, r) => Some (- y, r)
        | None => None
        end
      else read_digits 4 0 s
  | EmptyString => None
  end.

Definition read_fraction (s : string) : option (Z * string) :=
  match s with
  | String c s' => if Ascii.eqb c "." then read_digits 3 0 s' else Some (0, s)
  | EmptyString => Some (0, s)
  end.

Definition DaysInMonth (y m : Z) : Z :=
  let leap := if DaysInYear y =? 366 then 1 else 0 in
  monthStart leap m - monthStart leap (m - 1).

(** [MakeDay] for a month [m] in 1..12 and a day of the month [d]. *)
Definition MakeDay (y m d : Z) : Z :=
  DayFromYear y
  + monthStart (if DaysInYear y =? 366 then 1 else 0) (m - 1) + d - 1.

Definition MakeTime (h mi s ms : Z) : Z :=
  h * msPerHour + mi * msPerMinute + s * msPerSecond + ms.

Definition iso8601_instant (s : string) : option Z :=
  '(y, s) ← read_year s;
  s ← expect "-" s;
  '(m, s) ← read_digits 2 0 s;
  s ← expect "-" s;
  '(d, s) ← read_digits 2 0 s;
  s ← expect "T" s;
  '(h, s) ← read_digits 2 0 s;
  s ← expect ":" s;
  '(mi, s) ← read_digits 2 0 s;
  s ← expect ":" s;
  '(sec, s) ← read_digits 2 0 s;
  '(ms, s) ← read_fraction s;
  s ← expect "Z" s;
  if (String.eqb s "")
     && (1 <=? m) && (m <=? 12) && (1 <=? d) && (d <=? DaysInMonth y m)
     && (h <? 24) && (mi <? 60) && (sec <? 60)
  then Some (MakeDay y m d * msPerDay + MakeTime h mi sec ms)
  else None.

End JSDate.

(* ===================================================================== *)
(** * Data model *)
(* ===================================================================== *)

(** Values stored in the parameter record and in the request object. *)
Inductive jsval : Type :=
| JUndefined
| JNull
| JStr (s : string)
| JNum (n : Z)
| JArr (l : list string).

(** Truthiness of a [string | null | undefined] cell: the empty string is
    falsy, like [null] and [undefined]. *)
Definition truthy (o : option string) : bool :=
  match o with
  | Some s => negb (String.eqb s "")
  | None => false
  end.

(** [x || null]. *)
Definition or_null (o : option string) : option string :=
  if truthy o then o else None.

(** [v === lit] for a property read [v] and a string literal. *)
Definition is_str (v : option jsval) (lit : string) : bool :=
  match v with
  | Some (JStr s) => String.eqb s lit
  | _ => false
  end.

(** A template literal [`prefix${x}`]. *)
Definition template (prefix : string) (x : option string) : string :=
  prefix +:+ default "undefined" x.

Record ItemId : Type := mkItemId {
  videoId : option string;
  channelId : option string;
  playlistId : option string;
  kind : string
}.

Record Snippet : Type := mkSnippet {
  title : string;
  description : string;
  thumbnails_medium_url : string;
  channelTitle : string
}.

Record YouTubeSearchResult : Type := mkItem {
  id : ItemId;
  snippet : Snippet
}.

(** [response.result] of the external search call. *)
Module Response.
Record t : Type := mk {
  items : list YouTubeSearchResult;
  nextPageToken : option string;
  prevPageToken : option string
}.
End Response.

(** What the awaited call settles to. *)
Inductive jserror : Type :=
| RangeError
| ApiError (reason : string).

Inductive settled : Type :=
| Fulfilled (r : Response.t)
| Rejected (err : jserror).

(** The two variants of the component. *)
Inductive variant : Type :=
| PageTsx      (* src/app/page.tsx *)
| Part000.     (* src/unnamed/part_000 *)

Inductive TokenClient : Type :=
| mkTokenClient (client_id scope : string).

(** The [useState] cells of [YouTubeExplorer]. *)
Record State : Type := mkState {
  tokenClient : option TokenClient;
  accessToken : option string;
  isGapiReady : bool;
  results : list YouTubeSearchResult;
  loading : bool;
  nextPageToken : option string;
  prevPageToken : option string;
  params : gmap string jsval
}.

Definition setTokenClient (c : option TokenClient) (st : State) : State :=
  mkState c (accessToken st) (isGapiReady st) (results st) (loading st)
    (nextPageToken st) (prevPageToken st) (params st).
Definition setAccessToken (a : option string) (st : State) : State :=
  mkState (tokenClient st) a (isGapiReady st) (results st) (loading st)
    (nextPageToken st) (prevPageToken st) (params st).
Definition setIsGapiReady (b : bool) (st : State) : State :=
  mkState (tokenClient st) (accessToken st) b (results st) (loading st)
    (nextPageToken st) (prevPageToken st) (params st).
Definition setResults (r : list YouTubeSearchResult) (st : State) : State :=
  mkState (tokenClient st) (accessToken st) (isGapiReady st) r (loading st)
    (nextPageToken st) (prevPageToken st) (params st).
Definition setLoading (b : bool) (st : State) : State :=
  mkState (tokenClient st) (accessToken st) (isGapiReady st) (results st) b
    (nextPageToken st) (prevPageToken st) (params st).
Definition setNextPageToken (t : option string) (st : State) : State :=
  mkState (tokenClient st) (accessToken st) (isGapiReady st) (results st)
    (loading st) t (prevPageToken st) (params st).
Definition setPrevPageToken (t : option string) (st : State) : State :=
  mkState (tokenClient st) (accessToken st) (isGapiReady st) (results st)
    (loading st) (nextPageToken st) t (params st).
Definition setParams (p : gmap string jsval) (st : State) : State :=
  mkState (tokenClient st) (accessToken st) (isGapiReady st) (results st)
    (loading st) (nextPageToken st) (prevPageToken st) p.

(** The initial value of [params]; only [page.tsx] has [publishedAfter]. *)
Definition initial_params (v : variant) : gmap string jsval :=
  let common : gmap string jsval :=
    <["q" := JStr ""]> (<["maxResults" := JNum 50]>
    (<["order" := JStr "relevance"]> (<["type" := JStr "video"]>
    (<["videoDuration" := JStr "any"]> (<["videoDefinition" := JStr "any"]>
    (<["regionCode" := JStr "US"]> ∅)))))) in
  match v with
  | PageTsx => <["publishedAfter" := JStr "any"]> common
  | Part000 => common
  end.

Definition initial_state (v : variant) : State :=
  mkState None None false [] false None None (initial_params v).

(** Observable effects, in the order they happen. *)
Inductive effect : Type :=
| PreventDefault
| Alert (msg : string)
| SearchList (request : gmap string jsval)
| ConsoleError (msg : string) (err : jserror)
| ScrollToTop
| RequestAccessToken (prompt : string)
| GapiLoadClient
| InitTokenClient
| ClearInterval.

Definition is_SearchList (e : effect) : bool :=
  match e with SearchList _ => true | _ => false end.

Definition is_GapiLoadClient (e : effect) : bool :=
  match e with GapiLoadClient => true | _ => false end.

Definition is_InitTokenClient (e : effect) : bool :=
  match e with InitTokenClient => true | _ => false end.

(* ===================================================================== *)
(** * [handleSearch] *)
(* ===================================================================== *)

(** Lines 116-128 of [page.tsx]: the value of [publishedAfterDate] after
    the [if] chain; [inl] is an exception thrown by [toISOString]. *)
Definition publishedAfterDate (now : Z) (p : gmap string jsval)
  : jserror + jsval :=
  if is_str (p !! "publishedAfter") "week" then
    match JSDate.toISOString (now - 7 * 24 * 60 * 60 * 1000) with
    | Some s => inr (JStr s)
    | None => inl RangeError
    end
  else if is_str (p !! "publishedAfter") "day" then
    match JSDate.toISOString (now - 24 * 60 * 60 * 1000) with
    | Some s => inr (JStr s)
    | None => inl RangeError
    end
  else if is_str (p !! "publishedAfter") "any" then
    inr (JStr "1970-01-01T00:00:00Z")
  else inr JUndefined.

Definition js_pageToken (pageToken : option string) : jsval :=
  match pageToken with
  | Some s => JStr s
  | None => JNull
  end.

(** [{ part: ['snippet'], pageToken, ...params }]: the keys of [params]
    come later and win. *)
Definition spread_request (pageToken : option string) (p : gmap string jsval)
  : gmap string jsval :=
  p ∪ <["part" := JArr ["snippet"]]> (<["pageToken" := js_pageToken pageToken]> ∅).

(** The argument of [gapi.client.youtube.search.list]. *)
Definition search_request (v : variant) (pageToken : option string)
    (p : gmap string jsval) (published : jsval) : gmap string jsval :=
  match v with
  | PageTsx => <["publishedAfter" := published]> (spread_request pageToken p)
  | Part000 => spread_request pageToken p
  end.

(** [handleSearch] up to its [await]: the new state, the effects so far
    and, when the call was issued, the request the invocation waits on.

    [SearchList req] records that the handler evaluates
    [gapi.client.youtube.search.list(req)].  Whether [gapi] and its
    YouTube client are loaded is not part of this model: while they are
    not, the expression throws at once inside the [try], which for the
    state and the console is the call settling as [Rejected] without
    delay ([handleSearch_resume]).  The statements below hold for every
    way the call can settle; none says that a call which was issued
    reached the service. *)
Definition handleSearch_begin (v : variant) (now : Z) (st : State)
    (e : bool) (pageToken : option string)
  : State * list effect * option (gmap string jsval) :=
  let tr := if e then [PreventDefault] else [] in
  if negb (truthy (accessToken st)) then
    (st, tr ++ [Alert "Please authorize first!"], None)
  else
    let st1 := setLoading true st in
    match v with
    | PageTsx =>
        match publishedAfterDate now (params st) with
        | inl err =>
            (setLoading false st1,
             tr ++ [ConsoleError "Search failed:" err], None)
        | inr d =>
            let req := search_request v pageToken (params st) d in
            (st1, tr ++ [SearchList req], Some req)
        end
    | Part000 =>
        let req := search_request v pageToken (params st) JUndefined in
        (st1, tr ++ [SearchList req], Some req)
    end.

(** The list handed to [setResults]: [part_000] reverses the response's
    array first. *)
Definition stored_items (v : variant) (r : Response.t)
  : list YouTubeSearchResult :=
  match v with
  | PageTsx => Response.items r
  | Part000 => rev (Response.items r)
  end.

(** [handleSearch] from the moment the awaited call settles: the rest of
    the [try] block, or [catch], then [finally]. *)
Definition handleSearch_resume (v : variant) (st : State) (o : settled)
  : State * list effect :=
  match o with
  | Fulfilled r =>
      (setLoading false
         (setPrevPageToken (or_null (Response.prevPageToken r))
            (setNextPageToken (or_null (Response.nextPageToken r))
               (setResults (stored_items v r) st))),
       [ScrollToTop])
  | Rejected err =>
      (setLoading false st, [ConsoleError "Search failed:" err])
  end.

(** One whole invocation, the external call answered by [search_list]. *)
Definition handleSearch (v : variant) (now : Z)
    (search_list : gmap string jsval -> settled)
    (st : State) (e : bool) (pageToken : option string)
  : State * list effect :=
  match handleSearch_begin v now st e pageToken with
  | (st1, tr, Some req) =>
      let '(st2, tr2) := handleSearch_resume v st1 (search_list req) in
      (st2, tr ++ tr2)
  | (st1, tr, None) => (st1, tr)
  end.

(* ===================================================================== *)
(** * [getUrl] *)
(* ===================================================================== *)

Definition getUrl (item : YouTubeSearchResult) : string :=
  if truthy (videoId (id item)) then
    template "https://www.youtube.com/watch?v=" (videoId (id item))
  else if truthy (playlistId (id item)) then
    template "https://www.youtube.com/playlist?list=" (playlistId (id item))
  else if truthy (channelId (id item)) then
    template "https://www.youtube.com/channel/" (channelId (id item))
  else "#".

(* ===================================================================== *)
(** * [handleAuth] and the token callback *)
(* ===================================================================== *)

Definition handleAuth (st : State) : State * list effect :=
  match tokenClient st with
  | None => (st, [Alert "Google Auth library not ready yet."])
  | Some _ => (st, [RequestAccessToken "select_account"])
  end.

(** The [callback] given to [initTokenClient]. *)
Definition token_callback (access_token : option string) (st : State) : State :=
  if truthy access_token then setAccessToken access_token st else st.

(* ===================================================================== *)
(** * The rendered view *)
(* ===================================================================== *)

(** The two pagination buttons of [part_000] (lines 220-237). *)
Record Pagination : Type := mkPagination {
  prev_disabled : bool;
  next_disabled : bool
}.

(** The parts of the JSX the handlers depend on: the [disabled]
    attribute and label of the submit button, the [href] of every card,
    and the pagination block, which only [part_000] has and only renders
    when [results.length > 0]. *)
Record View : Type := mkView {
  submit_disabled : bool;
  submit_label : string;
  card_hrefs : list string;
  pagination : option Pagination
}.

Definition render (v : variant) (st : State) : View :=
  mkView
    (loading st || negb (truthy (accessToken st)))
    (if loading st then "Searching..." else "EXECUTE SEARCH")
    (map getUrl (results st))
    (match v with
     | PageTsx => None
     | Part000 =>
         if (0 <? length (results st))%nat then
           Some (mkPagination
                   (loading st || negb (truthy (prevPageToken st)))
                   (loading st || negb (truthy (nextPageToken st))))
         else None
     end).

(** The [required] attribute of the search box: an empty query blocks
    the submission of the form. *)
Definition query_filled (st : State) : bool :=
  match params st !! "q" with
  | Some (JStr s) => negb (String.eqb s "")
  | _ => false
  end.

(* ===================================================================== *)
(** * The readiness poll *)
(* ===================================================================== *)

(** What one run of the interval callback sees of the page's globals and
    of the build-time environment. *)
Record Globals : Type := mkGlobals {
  gapi_defined : bool;              (* typeof gapi !== 'undefined' *)
  google_defined : bool;            (* typeof google !== 'undefined' *)
  google_accounts : bool;           (* google.accounts is truthy *)
  env_client_id : option string     (* process.env.NEXT_PUBLIC_CLIENT_ID *)
}.

(** The variables of the effect closure: the two flags and whether the
    interval is still set. *)
Record Poll : Type := mkPoll {
  gapiInitStarted : bool;
  gisInitStarted : bool;
  interval_set : bool
}.

(** After the effect ran: both flags false, [setInterval] done. *)
Definition poll_mounted : Poll := mkPoll false false true.

Definition new_token_client (g : Globals) : TokenClient :=
  mkTokenClient
    (if truthy (env_client_id g) then default "" (env_client_id g) else "")
    "https://www.googleapis.com/auth/youtube.readonly".

(** The body of the interval callback (lines 64-93 of [page.tsx]). *)
Definition interval_callback (g : Globals) (p : Poll) (st : State)
  : Poll * State * list effect :=
  let '(p1, tr1) :=
    if gapi_defined g && negb (gapiInitStarted p)
    then (mkPoll true (gisInitStarted p) (interval_set p), [GapiLoadClient])
    else (p, []) in
  let '(p2, st2, tr2) :=
    if google_defined g && google_accounts g && negb (gisInitStarted p1)
    then (mkPoll (gapiInitStarted p1) true (interval_set p1),
          setTokenClient (Some (new_token_client g)) st,
          [InitTokenClient])
    else (p1, st, []) in
  let '(p3, tr3) :=
    if gapiInitStarted p2 && gisInitStarted p2
    then (mkPoll (gapiInitStarted p2) (gisInitStarted p2) false, [ClearInterval])
    else (p2, []) in
  (p3, st2, tr1 ++ tr2 ++ tr3).

(** The timer: the callback runs only while the interval is set; [None]
    means no step was taken. *)
Definition timer_fires (g : Globals) (p : Poll) (st : State)
  : option (Poll * State * list effect) :=
  if interval_set p then Some (interval_callback g p st) else None.

(** The cleanup function returned by the effect. *)
Definition effect_cleanup (p : Poll) : Poll * list effect :=
  (mkPoll (gapiInitStarted p) (gisInitStarted p) false, [ClearInterval]).

(* ===================================================================== *)
(** * The component as a transition system *)
(* ===================================================================== *)

(** The state cells, the closure of the init effect, and the search
    calls that were issued and have not settled yet. *)
Record App : Type := mkApp {
  app_state : State;
  app_poll : Poll;
  inflight : list (gmap string jsval)
}.

Definition initial_app (v : variant) : App :=
  mkApp (initial_state v) poll_mounted [].

(** What can happen to the page.  An event of the user reaches a handler
    only through the element that carries it: a button whose [disabled]
    attribute is set delivers no click, and a form whose submit button is
    disabled or whose required field is empty is not submitted. *)
Inductive event : Type :=
| TimerFires (g : Globals)
| Unmount
| GapiInitDone
| ClickAuth
| TokenResponse (access_token : option string)
| EditParam (key : string) (value : jsval)
| SubmitForm (now : Z)
| ClickPrevious (now : Z)
| ClickNext (now : Z)
| CallSettles (i : nat) (o : settled).

Definition start_search (v : variant) (now : Z) (a : App)
    (e : bool) (pageToken : option string) : App * list effect :=
  let '(st, tr, req) := handleSearch_begin v now (app_state a) e pageToken in
  (mkApp st (app_poll a) (inflight a ++ option_list req), tr).

Definition app_step (v : variant) (a : App) (ev : event) : App * list effect :=
  let st := app_state a in
  match ev with
  | TimerFires g =>
      match timer_fires g (app_poll a) st with
      | Some (p, st', tr) => (mkApp st' p (inflight a), tr)
      | None => (a, [])
      end
  | Unmount =>
      let '(p, tr) := effect_cleanup (app_poll a) in
      (mkApp st p (inflight a), tr)
  | GapiInitDone =>
      if gapiInitStarted (app_poll a)
      then (mkApp (setIsGapiReady true st) (app_poll a) (inflight a), [])
      else (a, [])
  | ClickAuth =>
      let '(st', tr) := handleAuth st in
      (mkApp st' (app_poll a) (inflight a), tr)
  | TokenResponse tok =>
      if gisInitStarted (app_poll a)
      then (mkApp (token_callback tok st) (app_poll a) (inflight a), [])
      else (a, [])
  | EditParam key value =>
      (mkApp (setParams (<[key := value]> (params st)) st)
         (app_poll a) (inflight a), [])
  | SubmitForm now =>
      if submit_disabled (render v st) || negb (query_filled st)
      then (a, [])
      else start_search v now a true None
  | ClickPrevious now =>
      match pagination (render v st) with
      | Some pg =>
          if prev_disabled pg then (a, [])
          else start_search v now a false (prevPageToken st)
      | None => (a, [])
      end
  | ClickNext now =>
      match pagination (render v st) with
      | Some pg =>
          if next_disabled pg then (a, [])
          else start_search v now a false (nextPageToken st)
      | None => (a, [])
      end
  | CallSettles i o =>
      match inflight a !! i with
      | Some _ =>
          let '(st', tr) := handleSearch_resume v st o in
          (mkApp st' (app_poll a) (delete i (inflight a)), tr)
      | None => (a, [])
      end
  end.

(** The page after a sequence of events, with every effect produced. *)
Fixpoint run (v : variant) (a : App) (evs : list event) : App * list effect :=
  match evs with
  | [] => (a, [])
  | ev :: evs' =>
      let '(a1, tr1) := app_step v a ev in
      let '(a2, tr2) := run v a1 evs' in
      (a2, tr1 ++ tr2)
  end.

(** How many effects of a trace satisfy [f]. *)
Fixpoint count_effect (f : effect -> bool) (tr : list effect) : nat :=
  match tr with
  | [] => 0%nat
  | e :: tr' => ((if f e then 1 else 0) + count_effect f tr')%nat
  end.

(* ===================================================================== *)
(** * Sample data *)
(* ===================================================================== *)

(** Concrete items, responses and states used by the examples below. *)

Definition sample_snippet : Snippet :=
  mkSnippet "A title" "A description" "https://i.ytimg.com/vi/x/mqdefault.jpg"
    "A channel".

Definition video_item : YouTubeSearchResult :=
  mkItem (mkItemId (Some "dQw4w9WgXcQ") None None "youtube#video") sample_snippet.

Definition playlist_item : YouTubeSearchResult :=
  mkItem (mkItemId None None (Some "PL590L5WQmH8f") "youtube#playlist")
    sample_snippet.

Definition channel_item : YouTubeSearchResult :=
  mkItem (mkItemId None (Some "UC_x5XG1OV2P6") None "youtube#channel")
    sample_snippet.

Definition authorized (v : variant) : State :=
  setAccessToken (Some "ya29.a0AfH6") (initial_state v).

Definition two_items : Response.t :=
  Response.mk [video_item; playlist_item] (Some "CDIQAA") None.

Definition quota_exceeded : jserror := ApiError "quotaExceeded".

Definition with_recency (v : variant) (filter : string) : State :=
  setParams (<["publishedAfter" := JStr filter]> (params (authorized v)))
    (authorized v).

Definition searching_with_cursors : State :=
  setLoading true
    (setPrevPageToken (Some "CAUQAQ")
       (setNextPageToken (Some "CAoQAA")
          (setResults [video_item] (authorized Part000)))).

Definition first_page : State :=
  setNextPageToken (Some "CAoQAA")
    (setResults [video_item] (authorized Part000)).

Definition all_loaded : Globals :=
  mkGlobals true true true (Some "1234.apps.googleusercontent.com").

Definition only_gapi : Globals := mkGlobals true false false None.

(** A visit: both libraries load, the user signs in, types a query and
    submits the form twice before the first call settles. *)
Definition double_submit : list event :=
  [TimerFires only_gapi; TimerFires all_loaded; TimerFires all_loaded;
   GapiInitDone; ClickAuth; TokenResponse (Some "ya29.a0AfH6");
   EditParam "q" (JStr "cats");
   SubmitForm 1700000000000; SubmitForm 1700000000500].

(* ===================================================================== *)
(** * Invariants of the transition system *)
(* ===================================================================== *)

(** While the busy flag is down nothing is pending, and never more than
    one call is. *)
Definition idle_or_single (a : App) : Prop :=
  (loading (app_state a) = false -> inflight a = [])
  /\ (length (inflight a) <= 1)%nat.

(** Once both flags are up the interval is cleared. *)
Definition poll_cleared (p : Poll) : Prop :=
  gapiInitStarted p = true -> gisInitStarted p = true -> interval_set p = false.

(** What a step from closure [p] to [p'] with effects [tr] may do: each
    library is initialised in the step exactly when its flag goes up, a
    cleared interval stays cleared and initialises nothing, and
    [poll_cleared] is kept. *)
Definition poll_step_ok (p p' : Poll) (tr : list effect) : Prop :=
  (count_effect is_GapiLoadClient tr + Nat.b2n (gapiInitStarted p)
   = Nat.b2n (gapiInitStarted p'))%nat
  /\ (count_effect is_InitTokenClient tr + Nat.b2n (gisInitStarted p)
      = Nat.b2n (gisInitStarted p'))%nat
  /\ (interval_set p = false ->
      interval_set p' = false
      /\ count_effect is_GapiLoadClient tr = 0%nat
      /\ count_effect is_InitTokenClient tr = 0%nat)
  /\ (poll_cleared p -> poll_cleared p').

(* ===================================================================== *)
(** * The form controls *)
(* ===================================================================== *)

(** An entry of an [options] array: a string, a number, or (in
    [page.tsx], for Published After) an object with a label and a value. *)
Inductive select_option : Type :=
| OptStr (s : string)
| OptNum (n : Z)
| OptObj (label value : string).

Record SelectField : Type := mkField {
  field_label : string;
  field_key : string;
  field_options : list select_option
}.

(** [selectFields] of [page.tsx] (lines 158-174); [part_000] maps over
    the same array written inline (lines 173-180), without the last
    entry. *)
Definition selectFields (v : variant) : list SelectField :=
  [ mkField "Sort Order" "order"
      [OptStr "relevance"; OptStr "date"; OptStr "rating"; OptStr "title";
       OptStr "viewCount"];
    mkField "Result Type" "type"
      [OptStr "video"; OptStr "channel"; OptStr "playlist"];
    mkField "Duration" "videoDuration"
      [OptStr "any"; OptStr "short"; OptStr "medium"; OptStr "long"];
    mkField "Resolution" "videoDefinition"
      [OptStr "any"; OptStr "high"; OptStr "standard"];
    mkField "Max Results" "maxResults"
      [OptNum 5; OptNum 10; OptNum 15; OptNum 20; OptNum 25; OptNum 30;
       OptNum 40; OptNum 50];
    mkField "Region Code" "regionCode"
      [OptStr "US"; OptStr "GB"; OptStr "CA"; OptStr "AU"; OptStr "IN";
       OptStr "DE"; OptStr "FR"; OptStr "JP"] ]
  ++ match v with
     | PageTsx =>
         [ mkField "Published After" "publishedAfter"
             [OptObj "Any Time" "any"; OptObj "One Week Before" "week";
              OptObj "One Day Before" "day"] ]
     | Part000 => []
     end.

(** [Number.MAX_SAFE_INTEGER], 2^53 - 1: up to it every integer is a
    number of the program. *)
Definition MAX_SAFE_INTEGER : Z := 9007199254740991.

(** [String(n)] for a number that is an integer from 0 to
    [MAX_SAFE_INTEGER]: its decimal digits.  [None] stands for every
    other number, which this model does not print (above 2^53 not every
    integer is a number, and from 1e21 the text is in exponent form). *)
Definition js_String (n : Z) : option string :=
  if (0 <=? n) && (n <=? MAX_SAFE_INTEGER)
  then Some (NilZero.string_of_int (Z.to_int n))
  else None.

(** [Number(s)] on the strings the page can pass: the empty string is 0
    and a run of decimal digits whose value is at most
    [MAX_SAFE_INTEGER] is that value; [None] stands for every other
    string, which this model does not convert. *)
Definition js_Number (s : string) : option Z :=
  if String.eqb s "" then Some 0
  else match NilZero.uint_of_string s with
       | Some d =>
           if Z.of_uint d <=? MAX_SAFE_INTEGER then Some (Z.of_uint d)
           else None
       | None => None
       end.

(** The [value] attribute of an [<option>], which is what
    [e.target.value] returns once it is selected; [None] where the
    option is a number [js_String] does not print. *)
Definition option_value (o : select_option) : option string :=
  match o with
  | OptStr s => Some s
  | OptNum n => js_String n
  | OptObj _ value => Some value
  end.

(** The text shown for an [<option>]. *)
Definition option_label (o : select_option) : option string :=
  match o with
  | OptStr s => Some s
  | OptNum n => js_String n
  | OptObj label _ => Some label
  end.

(** What the [onChange] of a select stores under [field.key]:
    [page.tsx] converts the value of Max Results with [Number],
    [part_000] stores [e.target.value] as it is. *)
Definition select_stored (v : variant) (f : SelectField) (o : select_option)
  : option jsval :=
  value ← option_value o;
  match v with
  | PageTsx =>
      if String.eqb (field_key f) "maxResults"
      then JNum <$> js_Number value
      else Some (JStr value)
  | Part000 => Some (JStr value)
  end.

(** [onChange] of the select of field [f], option [o] being picked:
    [setParams({ ...params, [field.key]: ... })]. *)
Definition select_onChange (v : variant) (f : SelectField) (o : select_option)
    (st : State) : option State :=
  x ← select_stored v f o;
  Some (setParams (<[field_key f := x]> (params st)) st).

(** [onChange] of the search box: [setParams({ ...params, q: ... })]. *)
Definition input_onChange (text : string) (st : State) : State :=
  setParams (<["q" := JStr text]> (params st)) st.

#[global] Instance jsval_eq_dec : EqDecision jsval.
Proof. solve_decision. Defined.

(** An event the rendered page can deliver: every edit of the parameters
    is the search box being typed in or a listed option of a listed
    select being picked. *)
Definition form_event (v : variant) (ev : event) : bool :=
  match ev with
  | EditParam k x =>
      (String.eqb k "q" && match x with JStr _ => true | _ => false end)
      || existsb
           (fun f =>
              String.eqb (field_key f) k
              && existsb (fun o => bool_decide (select_stored v f o = Some x))
                   (field_options f))
           (selectFields v)
  | _ => true
  end.

(** The shape the form keeps the parameters in. *)
Definition params_shape (v : variant) (p : gmap string jsval) : Prop :=
  dom p = dom (initial_params v)
  /\ (exists s, p !! "q" = Some (JStr s))
  /\ match v with
     | PageTsx =>
         (exists n, p !! "maxResults" = Some (JNum n) /\ 5 <= n <= 50)
         /\ (p !! "publishedAfter" = Some (JStr "any")
             \/ p !! "publishedAfter" = Some (JStr "week")
             \/ p !! "publishedAfter" = Some (JStr "day"))
     | Part000 => True
     end.

Definition grants_token (ev : event) : bool :=
  match ev with
  | TokenResponse tok => truthy tok
  | _ => false
  end.

Definition is_Unmount (ev : event) : bool :=
  match ev with Unmount => true | _ => false end.

(** The busy flag is up exactly while one call is pending. *)
Definition busy_exact (a : App) : Prop :=
  (loading (app_state a) = true <-> length (inflight a) = 1%nat)
  /\ (length (inflight a) <= 1)%nat.

(** The token client exists exactly when its initialisation started, and
    carries the read-only scope. *)
Definition token_client_ready (a : App) : Prop :=
  (is_Some (tokenClient (app_state a)) <-> gisInitStarted (app_poll a) = true)
  /\ forall cid scope, tokenClient (app_state a) = Some (mkTokenClient cid scope) ->
       scope = "https://www.googleapis.com/auth/youtube.readonly".

(** Sample events of the form. *)
Definition form_visit : list event :=
  [TimerFires all_loaded; TokenResponse (Some "ya29.a0AfH6");
   EditParam "q" (JStr "cats"); EditParam "maxResults" (JNum 10);
   EditParam "publishedAfter" (JStr "week");
   SubmitForm 1700000000000].

(** Whether [x] may be stored under key [k]: the query is a string, and
    in [page.tsx] Max Results is a number from 5 to 50 and Published
    After one of the three symbolic values. *)
Definition value_ok (v : variant) (k : string) (x : jsval) : bool :=
  (if String.eqb k "q"
   then match x with JStr _ => true | _ => false end
   else true)
  && match v with
     | PageTsx =>
         (if String.eqb k "maxResults"
          then match x with
               | JNum n => (5 <=? n) && (n <=? 50)
               | _ => false
               end
          else true)
         && (if String.eqb k "publishedAfter"
             then bool_decide (x = JStr "any") || bool_decide (x = JStr "week")
                  || bool_decide (x = JStr "day")
             else true)
     | Part000 => true
     end.

(** Option [o] of field [f] names an initial parameter and stores a
    value that [value_ok] accepts. *)
Definition field_ok (v : variant) (f : SelectField) (o : select_option) : bool :=
  bool_decide (is_Some (initial_params v !! field_key f))
  && negb (String.eqb (field_key f) "q")
  && match select_stored v f o with
     | Some x => value_ok v (field_key f) x
     | None => false
     end.

(** The requests of the search calls of a trace, in order. *)
Fixpoint requests (tr : list effect) : list (gmap string jsval) :=
  match tr with
  | [] => []
  | SearchList req :: tr' => req :: requests tr'
  | _ :: tr' => requests tr'
  end.

(* ===================================================================== *)
(** * Facts about [Date] *)
(* ===================================================================== *)

Example toISOString_epoch :
  JSDate.toISOString 0 = Some "1970-01-01T00:00:00.000Z".
Proof. reflexivity. Qed.

Example toISOString_2023 :
  JSDate.toISOString 1700000000000 = Some "2023-11-14T22:13:20.000Z".
Proof. vm_compute. reflexivity. Qed.

Example toISOString_before_epoch :
  JSDate.toISOString (-1) = Some "1969-12-31T23:59:59.999Z".
Proof. vm_compute. reflexivity. Qed.

Example toISOString_leap_day :
  JSDate.toISOString 951782400000 = Some "2000-02-29T00:00:00.000Z".
Proof. vm_compute. reflexivity. Qed.

Example toISOString_max :
  JSDate.toISOString 8640000000000000 = Some "+275760-09-13T00:00:00.000Z".
Proof. vm_compute. reflexivity. Qed.

Example toISOString_min :
  JSDate.toISOString (-8640000000000000) = Some "-271821-04-20T00:00:00.000Z".
Proof. vm_compute. reflexivity. Qed.

Example toISOString_out_of_range :
  JSDate.toISOString (-8640000000000001) = None.
Proof. reflexivity. Qed.

Example iso8601_instant_literal :
  JSDate.iso8601_instant "1970-01-01T00:00:00Z" = Some 0.
Proof. vm_compute. reflexivity. Qed.

Example iso8601_instant_2023 :
  JSDate.iso8601_instant "2023-11-14T22:13:20.000Z" = Some 1700000000000.
Proof. vm_compute. reflexivity. Qed.

Example iso8601_instant_bad_day :
  JSDate.iso8601_instant "2023-02-29T00:00:00.000Z" = None.
Proof. vm_compute. reflexivity. Qed.

Section DateFacts.
Import JSDate.

Local Ltac case_leap :=
  repeat match goal with
         | |- context [if negb (?a =? ?b) then _ else _] =>
             destruct (Z.eqb_spec a b); simpl
         end.

Lemma DayFromYear_succ y : DayFromYear (y + 1) = DayFromYear y + DaysInYear y.
Proof.
  unfold DayFromYear, DaysInYear.
  case_leap; Z.div_mod_to_equations; lia.
Qed.

Lemma YearFromDay_spec d :
  DayFromYear (YearFromDay d) <= d < DayFromYear (YearFromDay d + 1).
Proof.
  unfold YearFromDay.
  set (y := 1970 + 400 * d / 146097).
  assert (Hlo : DayFromYear (y - 1) <= d).
  { unfold DayFromYear, y. Z.div_mod_to_equations. lia. }
  assert (Hhi : d < DayFromYear (y + 2)).
  { unfold DayFromYear, y. Z.div_mod_to_equations. lia. }
  destruct (Z.ltb_spec d (DayFromYear y)).
  - replace (y - 1 + 1) with y by lia. lia.
  - destruct (Z.leb_spec (DayFromYear (y + 1)) d).
    + replace (y + 1 + 1) with (y + 2) by lia. lia.
    + lia.
Qed.

Lemma DayFromYear_mono y1 y2 : y1 <= y2 -> DayFromYear y1 <= DayFromYear y2.
Proof. unfold DayFromYear. intros. Z.div_mod_to_equations. lia. Qed.

(** The year of a day is the largest year starting on or before it. *)
Lemma YearFromDay_largest d y : DayFromYear y <= d -> y <= YearFromDay d.
Proof.
  intros Hy. destruct (Z.le_gt_cases y (YearFromDay d)) as [|Hgt]; [assumption|].
  pose proof (YearFromDay_spec d) as [_ Hd].
  pose proof (DayFromYear_mono (YearFromDay d + 1) y ltac:(lia)). lia.
Qed.

Lemma DaysInYear_cases y : DaysInYear y = 365 \/ DaysInYear y = 366.
Proof.
  unfold DaysInYear. case_leap; auto.
Qed.

Lemma DayWithinYear_range t :
  0 <= DayWithinYear t < 365 + InLeapYear t.
Proof.
  unfold DayWithinYear, InLeapYear, YearFromTime.
  pose proof (YearFromDay_spec (Day t)) as H.
  rewrite DayFromYear_succ in H.
  destruct (DaysInYear_cases (YearFromDay (Day t))) as [E|E]; rewrite E in *; simpl; lia.
Qed.

Lemma MonthFromTime_spec t :
  0 <= MonthFromTime t <= 11 /\
  monthStart (InLeapYear t) (MonthFromTime t) <= DayWithinYear t
    < monthStart (InLeapYear t) (MonthFromTime t + 1).
Proof.
  pose proof (DayWithinYear_range t) as H.
  unfold MonthFromTime.
  repeat match goal with
         | |- context [if ?a <? ?b then _ else _] => destruct (Z.ltb_spec a b)
         end; simpl; lia.
Qed.

Lemma DateFromTime_range t :
  1 <= DateFromTime t <= DaysInMonth (YearFromTime t) (MonthFromTime t + 1).
Proof.
  pose proof (MonthFromTime_spec t) as [Hm Hd].
  unfold DateFromTime, DaysInMonth.
  fold (InLeapYear t).
  replace (MonthFromTime t + 1 - 1) with (MonthFromTime t) by lia. lia.
Qed.

Lemma MakeDay_of_time t :
  MakeDay (YearFromTime t) (MonthFromTime t + 1) (DateFromTime t) = Day t.
Proof.
  unfold MakeDay, DateFromTime. fold (InLeapYear t).
  replace (MonthFromTime t + 1 - 1) with (MonthFromTime t) by lia.
  unfold DayWithinYear. lia.
Qed.

Lemma MakeTime_of_time t :
  Day t * msPerDay
  + MakeTime (HourFromTime t) (MinFromTime t) (SecFromTime t) (msFromTime t) = t.
Proof.
  unfold Day, MakeTime, HourFromTime, MinFromTime, SecFromTime, msFromTime,
    msPerDay, msPerHour, msPerMinute, msPerSecond.
  Z.div_mod_to_equations. lia.
Qed.

Lemma YearFromTime_range t :
  Z.abs t <= maxTime -> -271821 <= YearFromTime t <= 275760.
Proof.
  intros Ht. unfold YearFromTime.
  assert (Hd : -100000000 <= Day t <= 100000000).
  { unfold Day, msPerDay, maxTime in *. Z.div_mod_to_equations. lia. }
  pose proof (YearFromDay_spec (Day t)) as [Hlo Hhi].
  split.
  - destruct (Z.le_gt_cases (-271821) (YearFromDay (Day t))); [assumption|].
    pose proof (DayFromYear_mono (YearFromDay (Day t) + 1) (-271821) ltac:(lia)) as Hm.
    change (DayFromYear (-271821)) with (-100000109) in Hm. lia.
  - destruct (Z.le_gt_cases (YearFromDay (Day t)) 275760); [assumption|].
    pose proof (DayFromYear_mono 275761 (YearFromDay (Day t)) ltac:(lia)) as Hm.
    change (DayFromYear 275761) with 100000110 in Hm. lia.
Qed.

Lemma digit_val_char n : digit_val (digit_char n) = Some (n mod 10).
Proof.
  unfold digit_val, digit_char.
  pose proof (Z.mod_pos_bound n 10 ltac:(lia)) as Hn.
  rewrite nat_ascii_embedding by lia.
  rewrite Nat2Z.inj_add, Z2Nat.id by lia. change (Z.of_nat 48) with 48.
  destruct (Z.leb_spec 48 (48 + n mod 10)); [|lia].
  destruct (Z.leb_spec (48 + n mod 10) 57); [|lia].
  cbn [andb]. f_equal. lia.
Qed.

Lemma digit_val_not_sign c d :
  digit_val c = Some d -> Ascii.eqb c "+" = false /\ Ascii.eqb c "-" = false.
Proof.
  intros H. split; apply Ascii.eqb_neq; intros ->; discriminate H.
Qed.

Lemma read_digits_snoc k acc s :
  read_digits (S k) acc s =
  match read_digits k acc s with
  | Some (v, String c s') =>
      match digit_val c with Some d => Some (10 * v + d, s') | None => None end
  | _ => None
  end.
Proof.
  revert acc s. induction k as [|k IH]; intros acc s.
  - simpl. destruct s as [|c s']; [reflexivity|]. destruct (digit_val c); reflexivity.
  - change (read_digits (S (S k)) acc s) with
      (match s with
       | String c s' => match digit_val c with
                        | Some d => read_digits (S k) (10 * acc + d) s'
                        | None => None end
       | EmptyString => None end).
    destruct s as [|c s']; [reflexivity|].
    simpl read_digits at 2.
    destruct (digit_val c) as [d|]; [|reflexivity].
    apply IH.
Qed.

Lemma read_digits_pad k : forall n acc rest,
  0 <= n < 10 ^ Z.of_nat k ->
  read_digits k acc (pad_digits k n rest) = Some (acc * 10 ^ Z.of_nat k + n, rest).
Proof.
  induction k as [|k IH]; intros n acc rest Hn.
  - simpl in *. f_equal. f_equal. lia.
  - rewrite Nat2Z.inj_succ, Z.pow_succ_r in * by lia.
    rewrite read_digits_snoc.
    cbn [pad_digits].
    rewrite IH by (Z.div_mod_to_equations; lia).
    rewrite digit_val_char. f_equal. f_equal.
    Z.div_mod_to_equations; lia.
Qed.

Lemma pad_digits_head k n rest :
  exists c s d, pad_digits (S k) n rest = String c s /\ digit_val c = Some d.
Proof.
  revert n rest. induction k as [|k IH]; intros n rest.
  - simpl. eexists _, _, _. split; [reflexivity|apply digit_val_char].
  - change (pad_digits (S (S k)) n rest) with
      (pad_digits (S k) (n / 10) (String (digit_char n) rest)).
    apply IH.
Qed.

Lemma read_year_field y rest :
  -999999 <= y <= 999999 ->
  read_year (year_field y rest) = Some (y, rest).
Proof.
  intros Hy. unfold year_field.
  destruct (Z.leb_spec 0 y) as [H0|H0]; cbn [andb].
  - destruct (Z.leb_spec y 9999) as [H1|H1].
    + destruct (pad_digits_head 3 y rest) as (c & s & d & E & Hd).
      unfold read_year. rewrite E.
      destruct (digit_val_not_sign _ _ Hd) as [-> ->].
      rewrite <- E. rewrite read_digits_pad.
      * f_equal.
      * change (10 ^ Z.of_nat 4) with 10000. lia.
    + unfold read_year. change (Ascii.eqb "+" "+") with true. cbv iota.
      rewrite read_digits_pad.
      * f_equal.
      * change (10 ^ Z.of_nat 6) with 1000000. lia.
  - unfold read_year. change (Ascii.eqb "-" "+") with false.
    change (Ascii.eqb "-" "-") with true. cbv iota.
    rewrite read_digits_pad.
    * f_equal. f_equal. lia.
    * change (10 ^ Z.of_nat 6) with 1000000. lia.
Qed.

Lemma read_two n rest :
  0 <= n < 100 -> read_digits 2 0 (pad_digits 2 n rest) = Some (n, rest).
Proof.
  intros Hn. rewrite read_digits_pad.
  - f_equal.
  - change (10 ^ Z.of_nat 2) with 100. lia.
Qed.

Lemma read_three n rest :
  0 <= n < 1000 -> read_digits 3 0 (pad_digits 3 n rest) = Some (n, rest).
Proof.
  intros Hn. rewrite read_digits_pad.
  - f_equal.
  - change (10 ^ Z.of_nat 3) with 1000. lia.
Qed.

Lemma expect_head c s : expect c (String c s) = Some s.
Proof. unfold expect. rewrite Ascii.eqb_refl. reflexivity. Qed.

Lemma time_fields_range t :
  0 <= HourFromTime t < 24 /\ 0 <= MinFromTime t < 60 /\
  0 <= SecFromTime t < 60 /\ 0 <= msFromTime t < 1000.
Proof.
  unfold HourFromTime, MinFromTime, SecFromTime, msFromTime, msPerSecond.
  repeat split; apply Z.mod_pos_bound; lia.
Qed.

Lemma DaysInMonth_le_31 y m : 1 <= m <= 12 -> DaysInMonth y m <= 31.
Proof.
  intros Hm. unfold DaysInMonth.
  destruct (DaysInYear y =? 366);
  assert (m = 1 \/ m = 2 \/ m = 3 \/ m = 4 \/ m = 5 \/ m = 6 \/ m = 7 \/ m = 8
          \/ m = 9 \/ m = 10 \/ m = 11 \/ m = 12) as Hc by lia;
  repeat (destruct Hc as [->|Hc]; [vm_compute; discriminate|]); subst; vm_compute; discriminate.
Qed.

Lemma iso8601_instant_iso_of_time t :
  Z.abs t <= maxTime -> iso8601_instant (iso_of_time t) = Some t.
Proof.
  intros Ht.
  pose proof (YearFromTime_range t Ht) as Hy.
  pose proof (MonthFromTime_spec t) as [Hm _].
  pose proof (DateFromTime_range t) as Hd.
  pose proof (DaysInMonth_le_31 (YearFromTime t) (MonthFromTime t + 1) ltac:(lia)) as H31.
  pose proof (time_fields_range t) as (Hh & Hmi & Hs & Hms).
  unfold iso8601_instant, iso_of_time.
  rewrite read_year_field by lia. cbn [mbind option_bind].
  rewrite expect_head. cbn [mbind option_bind].
  rewrite read_two by lia. cbn [mbind option_bind].
  rewrite expect_head. cbn [mbind option_bind].
  rewrite read_two by lia. cbn [mbind option_bind].
  rewrite expect_head. cbn [mbind option_bind].
  rewrite read_two by lia. cbn [mbind option_bind].
  rewrite expect_head. cbn [mbind option_bind].
  rewrite read_two by lia. cbn [mbind option_bind].
  rewrite expect_head. cbn [mbind option_bind].
  rewrite read_two by lia. cbn [mbind option_bind].
  unfold read_fraction. change (Ascii.eqb "." ".") with true. cbv iota.
  rewrite read_three by lia. cbn [mbind option_bind].
  rewrite expect_head. cbn [mbind option_bind].
  change (String.eqb "" "") with true.
  rewrite !(proj2 (Z.leb_le _ _)), !(proj2 (Z.ltb_lt _ _)) by lia.
  cbn [andb]. rewrite MakeDay_of_time, MakeTime_of_time. reflexivity.
Qed.

(** [toISOString] never produces the same string for two instants. *)
Lemma toISOString_inj v1 v2 s :
  toISOString v1 = Some s -> toISOString v2 = Some s -> v1 = v2.
Proof.
  unfold toISOString, TimeClip.
  destruct (Z.leb_spec (Z.abs v1) maxTime) as [H1|]; [|discriminate].
  destruct (Z.leb_spec (Z.abs v2) maxTime) as [H2|]; [|discriminate].
  intros [= <-] [= E].
  apply iso8601_instant_iso_of_time in H1, H2.
  rewrite E in H2. congruence.
Qed.

End DateFacts.

(* ===================================================================== *)
(** * [getUrl] *)
(* ===================================================================== *)

Example getUrl_video :
  getUrl video_item = "https://www.youtube.com/watch?v=dQw4w9WgXcQ".
Proof. reflexivity. Qed.

Example getUrl_playlist :
  getUrl playlist_item = "https://www.youtube.com/playlist?list=PL590L5WQmH8f".
Proof. reflexivity. Qed.

Example getUrl_channel :
  getUrl channel_item = "https://www.youtube.com/channel/UC_x5XG1OV2P6".
Proof. reflexivity. Qed.

Example getUrl_none :
  getUrl (mkItem (mkItemId None None None "youtube#video") sample_snippet) = "#".
Proof. reflexivity. Qed.

(** An identifier that is present but empty is skipped, like a missing
    one. *)
Example getUrl_empty_video :
  getUrl (mkItem (mkItemId (Some "") None (Some "PL1") "k") sample_snippet)
  = "https://www.youtube.com/playlist?list=PL1".
Proof. reflexivity. Qed.

Lemma truthy_Some s : s ≠ "" -> truthy (Some s) = true.
Proof.
  intros Hs. unfold truthy. destruct (String.eqb_spec s ""); [contradiction|reflexivity].
Qed.

Lemma truthy_true o : truthy o = true -> exists s, o = Some s /\ s ≠ "".
Proof.
  destruct o as [s|]; [|discriminate]. unfold truthy.
  destruct (String.eqb_spec s ""); [discriminate|]. eauto.
Qed.

Lemma truthy_false o : truthy o = false <-> o = None \/ o = Some "".
Proof.
  split.
  - destruct o as [s|]; [|auto]. unfold truthy.
    destruct (String.eqb_spec s ""); [subst; auto|discriminate].
  - intros [->| ->]; reflexivity.
Qed.

(** C5. For every result item, [getUrl] returns the watch URL of the
    video identifier when the item carries one, the playlist URL of the
    playlist identifier when it carries that one (and no video
    identifier), the channel URL of the channel identifier when it
    carries that one (and neither of the other two), and ["#"] when it
    carries none of the three.  An identifier is carried when the field
    is a non-empty string. *)
Theorem getUrl_by_kind (item : YouTubeSearchResult) :
  (forall s, videoId (id item) = Some s -> s ≠ "" ->
     getUrl item = "https://www.youtube.com/watch?v=" +:+ s)
  /\ (forall s, truthy (videoId (id item)) = false ->
        playlistId (id item) = Some s -> s ≠ "" ->
        getUrl item = "https://www.youtube.com/playlist?list=" +:+ s)
  /\ (forall s, truthy (videoId (id item)) = false ->
        truthy (playlistId (id item)) = false ->
        channelId (id item) = Some s -> s ≠ "" ->
        getUrl item = "https://www.youtube.com/channel/" +:+ s)
  /\ (truthy (videoId (id item)) = false ->
      truthy (playlistId (id item)) = false ->
      truthy (channelId (id item)) = false ->
      getUrl item = "#").
Proof.
  unfold getUrl. repeat split.
  - intros s E Hs. rewrite E, (truthy_Some s Hs). reflexivity.
  - intros s Hv E Hs. rewrite Hv, E, (truthy_Some s Hs). reflexivity.
  - intros s Hv Hp E Hs. rewrite Hv, Hp, E, (truthy_Some s Hs). reflexivity.
  - intros Hv Hp Hc. rewrite Hv, Hp, Hc. reflexivity.
Qed.

Lemma getUrl_by_kind_witness :
  getUrl video_item = "https://www.youtube.com/watch?v=" +:+ "dQw4w9WgXcQ"
  /\ getUrl playlist_item
     = "https://www.youtube.com/playlist?list=" +:+ "PL590L5WQmH8f"
  /\ getUrl channel_item = "https://www.youtube.com/channel/" +:+ "UC_x5XG1OV2P6"
  /\ getUrl (mkItem (mkItemId None None None "youtube#video") sample_snippet)
     = "#".
Proof.
  split; [|split; [|split]].
  - apply (proj1 (getUrl_by_kind video_item) "dQw4w9WgXcQ");
      [reflexivity | discriminate].
  - apply (proj1 (proj2 (getUrl_by_kind playlist_item)) "PL590L5WQmH8f");
      [reflexivity | reflexivity | discriminate].
  - apply (proj1 (proj2 (proj2 (getUrl_by_kind channel_item))) "UC_x5XG1OV2P6");
      [reflexivity | reflexivity | reflexivity | discriminate].
  - apply (proj2 (proj2 (proj2 (getUrl_by_kind
             (mkItem (mkItemId None None None "youtube#video") sample_snippet)))));
      reflexivity.
Defined.

(** C10. When an item carries more than one identifier kind, a video
    identifier wins over a playlist identifier and a channel identifier,
    and a playlist identifier wins over a channel identifier: with a
    video identifier the watch URL is returned whatever the other two
    fields hold, and without one but with a playlist identifier the
    playlist URL is returned whatever [channelId] holds. *)
Theorem getUrl_precedence
    (vid pl ch : option string) (k : string) (sn : Snippet) :
  (forall s, vid = Some s -> s ≠ "" ->
     getUrl (mkItem (mkItemId vid ch pl k) sn)
     = "https://www.youtube.com/watch?v=" +:+ s)
  /\ (forall s, truthy vid = false -> pl = Some s -> s ≠ "" ->
        getUrl (mkItem (mkItemId vid ch pl k) sn)
        = "https://www.youtube.com/playlist?list=" +:+ s).
Proof.
  split.
  - intros s -> Hs. unfold getUrl; cbn [id videoId].
    rewrite (truthy_Some s Hs). reflexivity.
  - intros s Hv -> Hs. unfold getUrl; cbn [id videoId playlistId].
    rewrite Hv, (truthy_Some s Hs). reflexivity.
Qed.

Lemma getUrl_precedence_witness :
  getUrl (mkItem (mkItemId (Some "vid1") (Some "UC1") (Some "PL1") "k")
            sample_snippet)
  = "https://www.youtube.com/watch?v=" +:+ "vid1"
  /\ getUrl (mkItem (mkItemId None (Some "UC1") (Some "PL1") "k") sample_snippet)
     = "https://www.youtube.com/playlist?list=" +:+ "PL1".
Proof.
  split.
  - apply (proj1 (getUrl_precedence (Some "vid1") (Some "PL1") (Some "UC1")
                    "k" sample_snippet) "vid1"); [reflexivity | discriminate].
  - apply (proj2 (getUrl_precedence None (Some "PL1") (Some "UC1")
                    "k" sample_snippet) "PL1");
      [reflexivity | reflexivity | discriminate].
Defined.

(* ===================================================================== *)
(** * [handleSearch] *)
(* ===================================================================== *)

Lemma handleSearch_begin_issued v now st e tok st1 tr req :
  handleSearch_begin v now st e tok = (st1, tr, Some req) ->
  truthy (accessToken st) = true
  /\ st1 = setLoading true st
  /\ tr = (if e then [PreventDefault] else []) ++ [SearchList req].
Proof.
  unfold handleSearch_begin.
  destruct (truthy (accessToken st)); cbn [negb]; [|discriminate].
  destruct v.
  - destruct (publishedAfterDate now (params st)); [discriminate|].
    intros [= <- <- <-]. auto.
  - intros [= <- <- <-]. auto.
Qed.

Lemma or_null_Some s : s ≠ "" -> or_null (Some s) = Some s.
Proof. intros Hs. unfold or_null. rewrite (truthy_Some s Hs). reflexivity. Qed.

Lemma or_null_absent o : o = None \/ o = Some "" -> or_null o = None.
Proof. intros [-> | ->]; reflexivity. Qed.

(** C1, the claim as stated fails: in [part_000] a response with the
    items [video_item; playlist_item] leaves the list stored in the
    opposite order, and in both variants an empty cursor string is stored
    as [null]. *)
Lemma handleSearch_stores_as_returned_counterexample :
  let r := two_items in
  let st' := (handleSearch Part000 0 (fun _ => Fulfilled r)
                (authorized Part000) true None).1 in
  Response.items r = [video_item; playlist_item]
  /\ results st' = [playlist_item; video_item]
  /\ results st' ≠ Response.items r
  /\ nextPageToken
       (handleSearch PageTsx 0
          (fun _ => Fulfilled (Response.mk [video_item] (Some "") None))
          (authorized PageTsx) true None).1
     ≠ Some "".
Proof.
  repeat split; try reflexivity; vm_compute; discriminate.
Qed.

(** C1, amended.  For every successful search response, [handleSearch]
    stores both pagination cursors as returned ([null] when the cursor is
    absent or the empty string) and stores the returned item list in the
    same order in [page.tsx] and in reversed order in [part_000]. *)
Theorem handleSearch_success_stores
    (v : variant) (now : Z) (search_list : gmap string jsval -> settled)
    (st : State) (e : bool) (tok : option string)
    (st1 : State) (tr : list effect) (req : gmap string jsval)
    (r : Response.t) :
  handleSearch_begin v now st e tok = (st1, tr, Some req) ->
  search_list req = Fulfilled r ->
  let st' := (handleSearch v now search_list st e tok).1 in
  results st' = match v with
                | PageTsx => Response.items r
                | Part000 => rev (Response.items r)
                end
  /\ (forall s, Response.nextPageToken r = Some s -> s ≠ "" ->
        nextPageToken st' = Some s)
  /\ (Response.nextPageToken r = None \/ Response.nextPageToken r = Some "" ->
      nextPageToken st' = None)
  /\ (forall s, Response.prevPageToken r = Some s -> s ≠ "" ->
        prevPageToken st' = Some s)
  /\ (Response.prevPageToken r = None \/ Response.prevPageToken r = Some "" ->
      prevPageToken st' = None).
Proof.
  intros Hb Hr. unfold handleSearch. rewrite Hb. cbn [handleSearch_resume].
  rewrite Hr. cbn -[or_null].
  split; [destruct v; reflexivity|].
  split; [intros s -> Hs; apply or_null_Some, Hs|].
  split; [apply or_null_absent|].
  split; [intros s -> Hs; apply or_null_Some, Hs|].
  apply or_null_absent.
Qed.

Lemma handleSearch_success_stores_witness :
  let st' := (handleSearch Part000 0 (fun _ => Fulfilled two_items)
                (authorized Part000) true None).1 in
  results st' = rev (Response.items two_items)
  /\ nextPageToken st' = Some "CDIQAA"
  /\ prevPageToken st' = None.
Proof.
  pose proof (handleSearch_success_stores Part000 0
                (fun _ => Fulfilled two_items) (authorized Part000) true None
                (setLoading true (authorized Part000))
                [PreventDefault;
                 SearchList (search_request Part000 None
                               (params (authorized Part000)) JUndefined)]
                (search_request Part000 None (params (authorized Part000))
                   JUndefined)
                two_items eq_refl eq_refl) as (H1 & H2 & _ & _ & H5).
  split; [exact H1|].
  split; [apply (H2 "CDIQAA"); [reflexivity|discriminate]|].
  apply H5. left. reflexivity.
Defined.

(** C6. For every failing search call, [handleSearch] catches the error
    and logs it to the console; the result list, both pagination cursors
    and every other cell are as before the search, the busy flag being
    back to [false], so the state equals the one before the failed search
    whenever no search was in progress then. *)
Theorem handleSearch_failure_keeps_state
    (v : variant) (now : Z) (search_list : gmap string jsval -> settled)
    (st : State) (e : bool) (tok : option string)
    (st1 : State) (tr : list effect) (req : gmap string jsval)
    (err : jserror) :
  handleSearch_begin v now st e tok = (st1, tr, Some req) ->
  search_list req = Rejected err ->
  let '(st', tr') := handleSearch v now search_list st e tok in
  tr' = tr ++ [ConsoleError "Search failed:" err]
  /\ st' = setLoading false st
  /\ results st' = results st
  /\ nextPageToken st' = nextPageToken st
  /\ prevPageToken st' = prevPageToken st
  /\ (loading st = false -> st' = st).
Proof.
  intros Hb Hr. unfold handleSearch. rewrite Hb. cbn [handleSearch_resume].
  rewrite Hr.
  destruct (handleSearch_begin_issued _ _ _ _ _ _ _ _ Hb) as (_ & -> & _).
  repeat split.
  destruct st; cbn. intros ->. reflexivity.
Qed.

Lemma handleSearch_failure_keeps_state_witness :
  handleSearch PageTsx 1700000000000 (fun _ => Rejected quota_exceeded)
    (authorized PageTsx) true None
  = (authorized PageTsx,
     [PreventDefault;
      SearchList (search_request PageTsx None (params (authorized PageTsx))
                    (JStr "1970-01-01T00:00:00Z"));
      ConsoleError "Search failed:" quota_exceeded]).
Proof.
  pose proof (handleSearch_failure_keeps_state PageTsx 1700000000000
                (fun _ => Rejected quota_exceeded) (authorized PageTsx) true
                None
                (setLoading true (authorized PageTsx))
                [PreventDefault;
                 SearchList (search_request PageTsx None
                               (params (authorized PageTsx))
                               (JStr "1970-01-01T00:00:00Z"))]
                (search_request PageTsx None (params (authorized PageTsx))
                   (JStr "1970-01-01T00:00:00Z"))
                quota_exceeded eq_refl eq_refl) as H.
  destruct (handleSearch PageTsx 1700000000000
              (fun _ => Rejected quota_exceeded) (authorized PageTsx) true None)
    as [st' tr'].
  destruct H as (-> & _ & _ & _ & _ & ->); reflexivity.
Defined.

(** C7. For every call to [handleSearch] made while the access token is
    absent, the external search client is not invoked, the alert
    "Please authorize first!" is surfaced, and the state (results,
    pagination cursors, busy flag, query parameters and the rest) is left
    unchanged. *)
Theorem handleSearch_unauthorized
    (v : variant) (now : Z) (search_list : gmap string jsval -> settled)
    (st : State) (e : bool) (tok : option string) :
  truthy (accessToken st) = false ->
  let '(st', tr) := handleSearch v now search_list st e tok in
  st' = st
  /\ tr = (if e then [PreventDefault] else []) ++ [Alert "Please authorize first!"]
  /\ count_effect is_SearchList tr = 0%nat
  /\ handleSearch_begin v now st e tok = (st, tr, None).
Proof.
  intros Ha. unfold handleSearch, handleSearch_begin. rewrite Ha. cbn [negb].
  repeat split. destruct e; reflexivity.
Qed.

Lemma handleSearch_unauthorized_witness :
  handleSearch Part000 0 (fun _ => Fulfilled two_items)
    (initial_state Part000) true None
  = (initial_state Part000, [PreventDefault; Alert "Please authorize first!"]).
Proof.
  pose proof (handleSearch_unauthorized Part000 0
                (fun _ => Fulfilled two_items) (initial_state Part000) true
                None eq_refl) as H.
  destruct (handleSearch Part000 0 (fun _ => Fulfilled two_items)
              (initial_state Part000) true None) as [st' tr].
  destruct H as (-> & -> & _). reflexivity.
Defined.

(* ===================================================================== *)
(** * The recency filter *)
(* ===================================================================== *)

Example publishedAfterDate_week :
  publishedAfterDate 1700000000000 (params (with_recency PageTsx "week"))
  = inr (JStr "2023-11-07T22:13:20.000Z").
Proof. vm_compute. reflexivity. Qed.

Example publishedAfterDate_day :
  publishedAfterDate 1700000000000 (params (with_recency PageTsx "day"))
  = inr (JStr "2023-11-13T22:13:20.000Z").
Proof. vm_compute. reflexivity. Qed.

Example publishedAfterDate_other :
  publishedAfterDate 1700000000000 (params (with_recency PageTsx "month"))
  = inr JUndefined.
Proof. vm_compute. reflexivity. Qed.

(** Outside the range of [Date] the translation throws. *)
Example publishedAfterDate_out_of_range :
  publishedAfterDate (-8640000000000000) (params (with_recency PageTsx "day"))
  = inl RangeError.
Proof. vm_compute. reflexivity. Qed.

Lemma is_str_eq (p : gmap string jsval) k s : p !! k = Some (JStr s) -> is_str (p !! k) s = true.
Proof. intros ->. apply String.eqb_refl. Qed.

Lemma publishedAfterDate_shift (now delta : Z) :
  Z.abs (now - delta) <= JSDate.maxTime ->
  exists s, JSDate.toISOString (now - delta) = Some s
            /\ JSDate.iso8601_instant s = Some (now - delta).
Proof.
  intros H. exists (JSDate.iso_of_time (now - delta)). split.
  - unfold JSDate.toISOString, JSDate.TimeClip.
    destruct (Z.leb_spec (Z.abs (now - delta)) JSDate.maxTime); [reflexivity|lia].
  - apply iso8601_instant_iso_of_time, H.
Qed.

(** C2. The recency-filter translation of [handleSearch] maps ["week"] to
    the ISO-8601 timestamp of the instant exactly 7*24*60*60*1000
    milliseconds before the clock, ["day"] to the timestamp of the instant
    exactly 24*60*60*1000 milliseconds before the clock, and ["any"] to
    the fixed timestamp 1970-01-01T00:00:00Z, for every value of the
    clock: the value is [new Date(now - delta).toISOString()], and
    wherever that instant is a time value of [Date] the string read as an
    ISO-8601 timestamp denotes exactly [now - delta]. *)
Theorem publishedAfterDate_translation (now : Z) (p : gmap string jsval) :
  (p !! "publishedAfter" = Some (JStr "week") ->
   publishedAfterDate now p
   = match JSDate.toISOString (now - 7 * 24 * 60 * 60 * 1000) with
     | Some s => inr (JStr s)
     | None => inl RangeError
     end
   /\ (Z.abs (now - 7 * 24 * 60 * 60 * 1000) <= JSDate.maxTime ->
       exists s,
         publishedAfterDate now p = inr (JStr s)
         /\ JSDate.iso8601_instant s = Some (now - 7 * 24 * 60 * 60 * 1000)))
  /\ (p !! "publishedAfter" = Some (JStr "day") ->
      publishedAfterDate now p
      = match JSDate.toISOString (now - 24 * 60 * 60 * 1000) with
        | Some s => inr (JStr s)
        | None => inl RangeError
        end
      /\ (Z.abs (now - 24 * 60 * 60 * 1000) <= JSDate.maxTime ->
          exists s,
            publishedAfterDate now p = inr (JStr s)
            /\ JSDate.iso8601_instant s = Some (now - 24 * 60 * 60 * 1000)))
  /\ (p !! "publishedAfter" = Some (JStr "any") ->
      publishedAfterDate now p = inr (JStr "1970-01-01T00:00:00Z")
      /\ JSDate.iso8601_instant "1970-01-01T00:00:00Z" = Some 0).
Proof.
  unfold publishedAfterDate. split; [|split].
  - intros E. rewrite (is_str_eq p _ _ E). split; [reflexivity|].
    intros H. destruct (publishedAfterDate_shift now _ H) as (s & Hs & Hi).
    exists s. rewrite Hs. auto.
  - intros E. rewrite E. cbn [is_str].
    change (String.eqb "day" "week") with false.
    change (String.eqb "day" "day") with true. cbv iota.
    split; [reflexivity|].
    intros H. destruct (publishedAfterDate_shift now _ H) as (s & Hs & Hi).
    exists s. rewrite Hs. auto.
  - intros E. rewrite E. split; reflexivity.
Qed.

Lemma publishedAfterDate_translation_witness :
  publishedAfterDate 1700000000000 (params (with_recency PageTsx "week"))
  = inr (JStr "2023-11-07T22:13:20.000Z")
  /\ (exists s,
        publishedAfterDate 1700000000000 (params (with_recency PageTsx "day"))
        = inr (JStr s)
        /\ JSDate.iso8601_instant s = Some (1700000000000 - 24 * 60 * 60 * 1000))
  /\ publishedAfterDate 1700000000000 (params (authorized PageTsx))
     = inr (JStr "1970-01-01T00:00:00Z").
Proof.
  split; [|split].
  - destruct (proj1 (publishedAfterDate_translation 1700000000000
                       (params (with_recency PageTsx "week"))) eq_refl)
      as [H _].
    rewrite H. reflexivity.
  - apply (proj1 (proj2 (publishedAfterDate_translation 1700000000000
                           (params (with_recency PageTsx "day")))));
      [reflexivity | vm_compute; discriminate].
  - apply (proj2 (proj2 (publishedAfterDate_translation 1700000000000
                           (params (authorized PageTsx))))).
    reflexivity.
Defined.

Lemma spread_request_lookup tok (p : gmap string jsval) k :
  spread_request tok p !! k
  = match p !! k with
    | Some x => Some x
    | None =>
        if decide (k = "part") then Some (JArr ["snippet"])
        else if decide (k = "pageToken") then Some (js_pageToken tok)
        else None
    end.
Proof.
  unfold spread_request. rewrite lookup_union.
  destruct (p !! k) as [x|] eqn:E.
  - destruct (<[_:=_]> _ !! k); reflexivity.
  - rewrite (left_id_L None (∪)).
    repeat case_decide; subst; simplify_map_eq; reflexivity.
Qed.

(** In [page.tsx] the filter reaches the request: the states with the
    filter at ["week"] and at ["day"] send requests that differ at
    [publishedAfter]. *)
Example page_tsx_week_day_requests_differ :
  (handleSearch_begin PageTsx 1700000000000 (with_recency PageTsx "week")
     true None).2
  ≠ (handleSearch_begin PageTsx 1700000000000 (with_recency PageTsx "day")
       true None).2.
Proof.
  intros H;
    apply (f_equal (fun o : option (gmap string jsval) =>
                      o ≫= (fun m => m !! "publishedAfter"))) in H;
    vm_compute in H; discriminate H.
Qed.

(** How each variant builds the request from the parameters.  In
    [page.tsx] the request's [publishedAfter] is the translated value
    and every other key is the spread of the parameters, so at every
    clock two states whose filters are ["week"] and ["day"] send
    different requests.  [part_000] translates nothing: its request is
    the spread of the parameter record. *)
Lemma request_of_params
    (now : Z) (st : State) (e : bool) (tok : option string)
    (st1 : State) (tr : list effect) (req : gmap string jsval) :
  (handleSearch_begin PageTsx now st e tok = (st1, tr, Some req) ->
   (exists d, publishedAfterDate now (params st) = inr d
              /\ req !! "publishedAfter" = Some d)
   /\ (forall k, k ≠ "publishedAfter" ->
         req !! k = spread_request tok (params st) !! k)
   /\ (forall st' e' tok' st1' tr' req',
         params st !! "publishedAfter" = Some (JStr "week") ->
         params st' !! "publishedAfter" = Some (JStr "day") ->
         handleSearch_begin PageTsx now st' e' tok' = (st1', tr', Some req') ->
         req ≠ req'))
  /\ (handleSearch_begin Part000 now st e tok = (st1, tr, Some req) ->
      req !! "publishedAfter" = params st !! "publishedAfter"
      /\ forall k, req !! k = spread_request tok (params st) !! k).
Proof.
  split.
  - unfold handleSearch_begin.
    destruct (truthy (accessToken st)); cbn [negb]; [|discriminate].
    destruct (publishedAfterDate now (params st)) as [err|d] eqn:Ed;
      [discriminate|].
    intros [= <- <- <-]. cbn [search_request]. split; [|split].
    + exists d. split; [reflexivity|apply lookup_insert_eq].
    + intros k Hk. apply lookup_insert_ne. congruence.
    + intros st' e' tok' st1' tr' req' Hw Hdy.
      destruct (truthy (accessToken st')); cbn [negb]; [|discriminate].
      destruct (publishedAfterDate now (params st')) as [err'|d'] eqn:Ed';
        [discriminate|].
      intros [= <- <- <-] Heq.
      apply (f_equal (fun m : gmap string jsval => m !! "publishedAfter")) in Heq.
      cbn [search_request] in Heq. rewrite !lookup_insert_eq in Heq.
      injection Heq as <-.
      unfold publishedAfterDate in Ed, Ed'.
      rewrite (is_str_eq _ _ _ Hw) in Ed.
      rewrite Hdy in Ed'. cbn [is_str] in Ed'.
      change (String.eqb "day" "week") with false in Ed'.
      change (String.eqb "day" "day") with true in Ed'. cbv iota in Ed'.
      destruct (JSDate.toISOString (now - 7 * 24 * 60 * 60 * 1000)) as [s|] eqn:E7;
        [|discriminate].
      destruct (JSDate.toISOString (now - 24 * 60 * 60 * 1000)) as [s'|] eqn:E1;
        [|discriminate].
      injection Ed as <-. injection Ed' as ->.
      pose proof (toISOString_inj _ _ _ E7 E1). lia.
  - intros Hb.
    unfold handleSearch_begin in Hb.
    destruct (truthy (accessToken st)); cbn [negb] in Hb; [|discriminate].
    injection Hb as <- <- <-. cbn [search_request].
    split; [|reflexivity].
    rewrite spread_request_lookup.
    destruct (params st !! "publishedAfter"); reflexivity.
Qed.

(* ===================================================================== *)
(** * The pagination buttons *)
(* ===================================================================== *)

Example render_first_page :
  pagination (render Part000 first_page) = Some (mkPagination true false).
Proof. reflexivity. Qed.

Example render_no_results :
  pagination (render Part000 (authorized Part000)) = None.
Proof. reflexivity. Qed.

Example render_page_tsx :
  pagination (render PageTsx (setResults [video_item] (authorized PageTsx)))
  = None.
Proof. reflexivity. Qed.

(** C8, the claim as stated fails: while a search is in progress both
    buttons are disabled although both cursors are present. *)
Lemma pagination_disabled_iff_absent_counterexample :
  results searching_with_cursors ≠ []
  /\ prevPageToken searching_with_cursors = Some "CAUQAQ"
  /\ nextPageToken searching_with_cursors = Some "CAoQAA"
  /\ pagination (render Part000 searching_with_cursors)
     = Some (mkPagination true true).
Proof. repeat split. discriminate. Qed.

(** C8, amended.  In every rendered state of [part_000] with a non-empty
    result list, the Previous Page button is disabled exactly when a
    search is in progress or the backward cursor is absent (or empty),
    and the Next Page button exactly when a search is in progress or the
    forward cursor is absent (or empty); when no search is in progress
    and a cursor is present, its button is enabled. *)
Theorem pagination_disabled_iff (st : State) :
  results st ≠ [] ->
  exists pg,
    pagination (render Part000 st) = Some pg
    /\ (prev_disabled pg = true <->
        loading st = true \/ prevPageToken st = None \/ prevPageToken st = Some "")
    /\ (next_disabled pg = true <->
        loading st = true \/ nextPageToken st = None \/ nextPageToken st = Some "")
    /\ (forall s, loading st = false -> prevPageToken st = Some s -> s ≠ "" ->
          prev_disabled pg = false)
    /\ (forall s, loading st = false -> nextPageToken st = Some s -> s ≠ "" ->
          next_disabled pg = false).
Proof.
  intros Hres. unfold render; cbn [pagination].
  destruct (results st) as [|item rest]; [contradiction|]. cbn [length Nat.ltb Nat.leb].
  eexists. split; [reflexivity|]. cbn [prev_disabled next_disabled].
  rewrite !orb_true_iff, !negb_true_iff, !truthy_false.
  repeat split; try tauto.
  - intros s -> -> Hs. cbn [orb]. rewrite (truthy_Some s Hs). reflexivity.
  - intros s -> -> Hs. cbn [orb]. rewrite (truthy_Some s Hs). reflexivity.
Qed.

Lemma pagination_disabled_iff_witness :
  exists pg,
    pagination (render Part000 first_page) = Some pg
    /\ prev_disabled pg = true /\ next_disabled pg = false.
Proof.
  destruct (pagination_disabled_iff first_page ltac:(discriminate))
    as (pg & Hpg & Hprev & _ & _ & Hnext).
  exists pg. split; [exact Hpg|]. split.
  - apply Hprev. right. left. reflexivity.
  - apply (Hnext "CAoQAA"); [reflexivity | reflexivity | discriminate].
Defined.

(* ===================================================================== *)
(** * One search at a time *)
(* ===================================================================== *)

Example double_submit_one_call :
  let '(a, tr) := run PageTsx (initial_app PageTsx) double_submit in
  count_effect is_SearchList tr = 1%nat
  /\ length (inflight a) = 1%nat
  /\ loading (app_state a) = true.
Proof. vm_compute. auto. Qed.

(** [handleSearch] does not read the busy flag itself: called directly
    while a search is in progress it issues the call again.  The flag
    acts through the [disabled] attributes of [render]. *)
Lemma handleSearch_begin_ignores_loading v now st e tok :
  (handleSearch_begin v now (setLoading true st) e tok).2
  = (handleSearch_begin v now st e tok).2.
Proof.
  unfold handleSearch_begin. cbn [accessToken setLoading params].
  destruct (truthy (accessToken st)); cbn [negb]; [|reflexivity].
  destruct v; [|reflexivity].
  destruct (publishedAfterDate now (params st)); reflexivity.
Qed.

Lemma interval_callback_loading g p st :
  loading (interval_callback g p st).1.2 = loading st.
Proof.
  unfold interval_callback.
  destruct (gapi_defined g && negb (gapiInitStarted p));
    cbn [gisInitStarted gapiInitStarted];
    destruct (google_defined g && google_accounts g && negb (gisInitStarted p));
    cbn [gisInitStarted gapiInitStarted];
    repeat match goal with |- context [if ?b then _ else _] => destruct b end;
    reflexivity.
Qed.

Lemma handleSearch_begin_cases v now st e tok :
  let '(st1, tr, req) := handleSearch_begin v now st e tok in
  (req = None /\ count_effect is_SearchList tr = 0%nat
   /\ (st1 = st \/ st1 = setLoading false (setLoading true st)))
  \/ (exists r, req = Some r /\ count_effect is_SearchList tr = 1%nat
      /\ st1 = setLoading true st).
Proof.
  unfold handleSearch_begin.
  destruct (truthy (accessToken st)); cbn [negb].
  - destruct v.
    + destruct (publishedAfterDate now (params st)).
      * left. destruct e; auto.
      * right. eexists. destruct e; auto.
    + right. eexists. destruct e; auto.
  - left. destruct e; auto.
Qed.

Lemma start_search_idle v now a e tok :
  idle_or_single a -> loading (app_state a) = false ->
  idle_or_single (start_search v now a e tok).1.
Proof.
  intros [Hidle _] Hl. specialize (Hidle Hl).
  unfold start_search.
  pose proof (handleSearch_begin_cases v now (app_state a) e tok) as H.
  destruct (handleSearch_begin v now (app_state a) e tok) as [[st1 tr] req].
  destruct H as [(-> & _ & Hst) | (r & -> & _ & ->)];
    unfold idle_or_single; cbn; rewrite Hidle.
  - split; [reflexivity | cbn; lia].
  - split; [discriminate | cbn; lia].
Qed.

Lemma delete_single {A} (l : list A) i x :
  (length l <= 1)%nat -> l !! i = Some x -> delete i l = [].
Proof.
  destruct l as [|y [|z l]]; cbn; try discriminate; [|lia].
  destruct i; [reflexivity|discriminate].
Qed.

Lemma app_step_idle_or_single v a ev :
  idle_or_single a -> idle_or_single (app_step v a ev).1.
Proof.
  intros Ha. pose proof Ha as [Hidle Hlen].
  destruct ev; cbn [app_step].
  - unfold timer_fires. destruct (interval_set (app_poll a)); [|exact Ha].
    pose proof (interval_callback_loading g (app_poll a) (app_state a)) as Hl.
    destruct (interval_callback g (app_poll a) (app_state a)) as [[p st'] tr].
    unfold idle_or_single. cbn in *. split; [rewrite Hl; exact Hidle | exact Hlen].
  - exact Ha.
  - destruct (gapiInitStarted (app_poll a)); exact Ha.
  - unfold handleAuth. destruct (tokenClient (app_state a)); exact Ha.
  - destruct (gisInitStarted (app_poll a)); [|exact Ha].
    unfold token_callback. destruct (truthy access_token); exact Ha.
  - exact Ha.
  - unfold render; cbn [submit_disabled].
    destruct (loading (app_state a)) eqn:Hl; cbn [orb]; [exact Ha|].
    destruct (_ || _); [exact Ha|].
    apply start_search_idle; assumption.
  - unfold render; destruct v; cbn [pagination]; [exact Ha|].
    destruct (0 <? length (results (app_state a)))%nat; [|exact Ha].
    cbn [prev_disabled].
    destruct (loading (app_state a)) eqn:Hl; cbn [orb]; [exact Ha|].
    destruct (negb _); [exact Ha|].
    apply start_search_idle; assumption.
  - unfold render; destruct v; cbn [pagination]; [exact Ha|].
    destruct (0 <? length (results (app_state a)))%nat; [|exact Ha].
    cbn [next_disabled].
    destruct (loading (app_state a)) eqn:Hl; cbn [orb]; [exact Ha|].
    destruct (negb _); [exact Ha|].
    apply start_search_idle; assumption.
  - destruct (inflight a !! i) as [req|] eqn:Hi; [|exact Ha].
    destruct (handleSearch_resume v (app_state a) o) as [st' tr].
    unfold idle_or_single. cbn. rewrite (delete_single _ _ _ Hlen Hi).
    split; [reflexivity|cbn; lia].
Qed.

Lemma run_cons v a ev evs :
  run v a (ev :: evs)
  = ((run v (app_step v a ev).1 evs).1,
     (app_step v a ev).2 ++ (run v (app_step v a ev).1 evs).2).
Proof.
  cbn [run]. destruct (app_step v a ev) as [a1 tr1]. cbn [fst snd].
  destruct (run v a1 evs) as [a2 tr2]. reflexivity.
Qed.

Lemma run_idle_or_single v evs : forall a,
  idle_or_single a -> idle_or_single (run v a evs).1.
Proof.
  induction evs as [|ev evs IH]; intros a Ha; [exact Ha|].
  rewrite run_cons. cbn [fst]. apply IH, app_step_idle_or_single, Ha.
Qed.

Lemma interval_callback_no_search g p st :
  count_effect is_SearchList (interval_callback g p st).2 = 0%nat.
Proof.
  unfold interval_callback.
  destruct (gapi_defined g && negb (gapiInitStarted p));
    cbn [gisInitStarted gapiInitStarted];
    destruct (google_defined g && google_accounts g && negb (gisInitStarted p));
    cbn [gisInitStarted gapiInitStarted];
    repeat match goal with |- context [if ?b then _ else _] => destruct b end;
    reflexivity.
Qed.

Lemma start_search_count v now a e tok :
  idle_or_single a -> loading (app_state a) = false ->
  (count_effect is_SearchList (start_search v now a e tok).2 <= 1)%nat
  /\ (count_effect is_SearchList (start_search v now a e tok).2 = 1%nat ->
      inflight a = []).
Proof.
  intros [Hidle _] Hl. specialize (Hidle Hl). unfold start_search.
  pose proof (handleSearch_begin_cases v now (app_state a) e tok) as H.
  destruct (handleSearch_begin v now (app_state a) e tok) as [[st1 tr] req].
  cbn [snd]. destruct H as [(_ & -> & _) | (r & _ & -> & _)]; split; auto.
Qed.

(** An event issues at most one search call, none while the busy flag is
    up, and one only when no call is pending. *)
Lemma app_step_search_when_idle v a ev :
  idle_or_single a ->
  (count_effect is_SearchList (app_step v a ev).2 <= 1)%nat
  /\ (loading (app_state a) = true ->
      count_effect is_SearchList (app_step v a ev).2 = 0%nat)
  /\ (count_effect is_SearchList (app_step v a ev).2 = 1%nat ->
      inflight a = []).
Proof.
  intros Ha.
  assert (Hz : forall tr, count_effect is_SearchList tr = 0%nat ->
                 (count_effect is_SearchList tr <= 1)%nat
                 /\ (loading (app_state a) = true ->
                     count_effect is_SearchList tr = 0%nat)
                 /\ (count_effect is_SearchList tr = 1%nat -> inflight a = [])).
  { intros tr ->. repeat split; [lia | discriminate]. }
  assert (Hs : forall now e tok, loading (app_state a) = false ->
                 let tr := (start_search v now a e tok).2 in
                 (count_effect is_SearchList tr <= 1)%nat
                 /\ (loading (app_state a) = true ->
                     count_effect is_SearchList tr = 0%nat)
                 /\ (count_effect is_SearchList tr = 1%nat -> inflight a = [])).
  { intros now e tok Hl.
    destruct (start_search_count v now a e tok Ha Hl) as [H1 H2].
    cbn zeta. rewrite Hl. repeat split; [exact H1 | discriminate | exact H2]. }
  destruct ev; cbn [app_step].
  - unfold timer_fires. destruct (interval_set (app_poll a)); [|apply Hz; reflexivity].
    pose proof (interval_callback_no_search g (app_poll a) (app_state a)) as Hc.
    destruct (interval_callback g (app_poll a) (app_state a)) as [[p st'] tr].
    apply Hz, Hc.
  - apply Hz. reflexivity.
  - destruct (gapiInitStarted (app_poll a)); apply Hz; reflexivity.
  - unfold handleAuth. destruct (tokenClient (app_state a)); apply Hz; reflexivity.
  - destruct (gisInitStarted (app_poll a)); apply Hz; reflexivity.
  - apply Hz. reflexivity.
  - unfold render; cbn [submit_disabled].
    destruct (loading (app_state a)) eqn:Hl; cbn [orb]; [apply Hz; reflexivity|].
    destruct (_ || _); [apply Hz; reflexivity|].
    apply Hs. reflexivity.
  - unfold render; destruct v; cbn [pagination]; [apply Hz; reflexivity|].
    destruct (0 <? length (results (app_state a)))%nat; [|apply Hz; reflexivity].
    cbn [prev_disabled].
    destruct (loading (app_state a)) eqn:Hl; cbn [orb]; [apply Hz; reflexivity|].
    destruct (negb _); [apply Hz; reflexivity|].
    apply Hs. reflexivity.
  - unfold render; destruct v; cbn [pagination]; [apply Hz; reflexivity|].
    destruct (0 <? length (results (app_state a)))%nat; [|apply Hz; reflexivity].
    cbn [next_disabled].
    destruct (loading (app_state a)) eqn:Hl; cbn [orb]; [apply Hz; reflexivity|].
    destruct (negb _); [apply Hz; reflexivity|].
    apply Hs. reflexivity.
  - destruct (inflight a !! i) as [req|]; [|apply Hz; reflexivity].
    destruct o; apply Hz; reflexivity.
Qed.

Lemma initial_app_idle v : idle_or_single (initial_app v).
Proof. split; [reflexivity | cbn; lia]. Qed.

(** C4. At most one search is in flight at a time.  In every state the
    page can reach, at most one call to the external search client is
    pending and the busy flag is up while one is; every element that
    starts a search is disabled while the flag is up, so no event issues
    a search call then, and an event that issues one finds no call
    pending. *)
Theorem at_most_one_search_in_flight (v : variant) (evs : list event) :
  let a := (run v (initial_app v) evs).1 in
  (length (inflight a) <= 1)%nat
  /\ (inflight a ≠ [] -> loading (app_state a) = true)
  /\ forall ev,
       (count_effect is_SearchList (app_step v a ev).2 <= 1)%nat
       /\ (loading (app_state a) = true ->
           count_effect is_SearchList (app_step v a ev).2 = 0%nat)
       /\ (count_effect is_SearchList (app_step v a ev).2 = 1%nat ->
           inflight a = []).
Proof.
  pose proof (run_idle_or_single v evs _ (initial_app_idle v)) as Ha.
  cbn zeta. split; [apply Ha|]. split.
  - intros Hne. destruct (loading _) eqn:Hl; [reflexivity|].
    destruct Ha as [Hidle _]. elim Hne. apply Hidle, Hl.
  - intros ev. apply app_step_search_when_idle, Ha.
Qed.

Lemma at_most_one_search_in_flight_witness :
  let a := (run PageTsx (initial_app PageTsx) double_submit).1 in
  (length (inflight a) <= 1)%nat
  /\ loading (app_state a) = true
  /\ count_effect is_SearchList
       (app_step PageTsx a (SubmitForm 1700000001000)).2 = 0%nat.
Proof.
  destruct (at_most_one_search_in_flight PageTsx double_submit)
    as (Hlen & Hbusy & Hstep).
  assert (Hl : loading
                 (app_state (run PageTsx (initial_app PageTsx) double_submit).1)
               = true).
  { apply Hbusy. vm_compute. discriminate. }
  split; [exact Hlen|]. split; [exact Hl|].
  apply (Hstep (SubmitForm 1700000001000)), Hl.
Defined.

(* ===================================================================== *)
(** * The readiness poll *)
(* ===================================================================== *)

Example double_submit_initialises_once :
  let '(a, tr) := run PageTsx (initial_app PageTsx) double_submit in
  count_effect is_GapiLoadClient tr = 1%nat
  /\ count_effect is_InitTokenClient tr = 1%nat
  /\ app_poll a = mkPoll true true false.
Proof. vm_compute. auto. Qed.

Example unmount_before_detection :
  run Part000 (initial_app Part000)
    [TimerFires only_gapi; Unmount; TimerFires all_loaded]
  = (mkApp (initial_state Part000) (mkPoll true false false) [],
     [GapiLoadClient; ClearInterval]).
Proof. reflexivity. Qed.

Lemma count_effect_app f tr1 tr2 :
  count_effect f (tr1 ++ tr2) = (count_effect f tr1 + count_effect f tr2)%nat.
Proof. induction tr1 as [|e tr1 IH]; cbn; [reflexivity|]. rewrite IH. lia. Qed.

Lemma run_app v evs1 : forall a evs2,
  run v a (evs1 ++ evs2)
  = ((run v (run v a evs1).1 evs2).1,
     (run v a evs1).2 ++ (run v (run v a evs1).1 evs2).2).
Proof.
  induction evs1 as [|ev evs1 IH]; intros a evs2.
  - cbn. destruct (run v a evs2); reflexivity.
  - rewrite <- app_comm_cons, !run_cons, IH. cbn [fst snd].
    rewrite app_assoc. reflexivity.
Qed.

Lemma poll_step_ok_same p tr :
  count_effect is_GapiLoadClient tr = 0%nat ->
  count_effect is_InitTokenClient tr = 0%nat ->
  poll_step_ok p p tr.
Proof. intros H1 H2. unfold poll_step_ok. rewrite H1, H2. cbn. tauto. Qed.

Lemma interval_callback_poll g p st :
  interval_set p = true ->
  poll_step_ok p (interval_callback g p st).1.1 (interval_callback g p st).2.
Proof.
  unfold interval_callback, poll_step_ok, poll_cleared.
  destruct p as [ga gi s]. cbn [interval_set]. intros ->.
  destruct (gapi_defined g), (google_defined g), (google_accounts g), ga, gi;
    cbn; repeat split; auto; discriminate.
Qed.

Lemma start_search_poll v now a e tok :
  poll_step_ok (app_poll a) (app_poll (start_search v now a e tok).1)
    (start_search v now a e tok).2.
Proof.
  unfold start_search, handleSearch_begin.
  destruct (truthy (accessToken (app_state a))); cbn [negb];
    [destruct v; [destruct (publishedAfterDate now (params (app_state a)))|]|];
    destruct e; apply poll_step_ok_same; reflexivity.
Qed.

Lemma app_step_poll v a ev :
  poll_step_ok (app_poll a) (app_poll (app_step v a ev).1) (app_step v a ev).2.
Proof.
  destruct ev; cbn [app_step].
  - unfold timer_fires.
    destruct (interval_set (app_poll a)) eqn:Hset;
      [|apply poll_step_ok_same; reflexivity].
    pose proof (interval_callback_poll g (app_poll a) (app_state a) Hset) as H.
    destruct (interval_callback g (app_poll a) (app_state a)) as [[p st'] tr].
    exact H.
  - unfold poll_step_ok, poll_cleared. cbn. tauto.
  - destruct (gapiInitStarted (app_poll a)); apply poll_step_ok_same; reflexivity.
  - unfold handleAuth. destruct (tokenClient (app_state a));
      apply poll_step_ok_same; reflexivity.
  - destruct (gisInitStarted (app_poll a)); apply poll_step_ok_same; reflexivity.
  - apply poll_step_ok_same; reflexivity.
  - destruct (_ || _); [apply poll_step_ok_same; reflexivity | apply start_search_poll].
  - destruct (pagination _) as [pg|]; [|apply poll_step_ok_same; reflexivity].
    destruct (prev_disabled pg);
      [apply poll_step_ok_same; reflexivity | apply start_search_poll].
  - destruct (pagination _) as [pg|]; [|apply poll_step_ok_same; reflexivity].
    destruct (next_disabled pg);
      [apply poll_step_ok_same; reflexivity | apply start_search_poll].
  - destruct (inflight a !! i); [|apply poll_step_ok_same; reflexivity].
    destruct o; apply poll_step_ok_same; reflexivity.
Qed.

Lemma poll_step_ok_trans p1 p2 p3 tr1 tr2 :
  poll_step_ok p1 p2 tr1 -> poll_step_ok p2 p3 tr2 ->
  poll_step_ok p1 p3 (tr1 ++ tr2).
Proof.
  unfold poll_step_ok. intros (A1 & B1 & C1 & D1) (A2 & B2 & C2 & D2).
  rewrite !count_effect_app. split; [lia|]. split; [lia|]. split; [|auto].
  intros H. destruct (C1 H) as (H2 & -> & ->).
  destruct (C2 H2) as (H3 & -> & ->). auto.
Qed.

Lemma run_poll v evs : forall a,
  poll_step_ok (app_poll a) (app_poll (run v a evs).1) (run v a evs).2.
Proof.
  induction evs as [|ev evs IH]; intros a.
  - apply poll_step_ok_same; reflexivity.
  - rewrite run_cons. cbn [fst snd].
    eapply poll_step_ok_trans; [apply app_step_poll | apply IH].
Qed.

(** C9. The readiness poll initialises each of the two external library
    clients at most once, and the interval cancels itself as soon as both
    globals have been detected: a callback run that sees both leaves the
    interval cleared, and it is cleared whenever both flags are up.  The
    cleanup of the effect clears it too.  Once cleared, the timer takes
    no further step and nothing is initialised, whatever happens
    afterwards. *)
Theorem readiness_poll_once (v : variant) (evs : list event) :
  let a := (run v (initial_app v) evs).1 in
  let tr := (run v (initial_app v) evs).2 in
  (count_effect is_GapiLoadClient tr <= 1)%nat
  /\ (count_effect is_InitTokenClient tr <= 1)%nat
  /\ (forall g, gapi_defined g = true -> google_defined g = true ->
               google_accounts g = true ->
       interval_set (app_poll (app_step v a (TimerFires g)).1) = false)
  /\ interval_set (app_poll (app_step v a Unmount).1) = false
  /\ (gapiInitStarted (app_poll a) = true -> gisInitStarted (app_poll a) = true ->
      interval_set (app_poll a) = false)
  /\ (interval_set (app_poll a) = false ->
      forall evs' g,
        let a' := (run v a evs').1 in
        timer_fires g (app_poll a') (app_state a') = None
        /\ app_step v a' (TimerFires g) = (a', [])
        /\ count_effect is_GapiLoadClient (run v a evs').2 = 0%nat
        /\ count_effect is_InitTokenClient (run v a evs').2 = 0%nat).
Proof.
  cbn zeta.
  pose proof (run_poll v evs (initial_app v)) as (Hg & Hi & _ & Hc).
  cbn [initial_app app_poll poll_mounted gapiInitStarted gisInitStarted Nat.b2n] in Hg, Hi.
  set (a := (run v (initial_app v) evs).1) in *.
  set (tr := (run v (initial_app v) evs).2) in *.
  split; [destruct (gapiInitStarted (app_poll a)); cbn in Hg; lia|].
  split; [destruct (gisInitStarted (app_poll a)); cbn in Hi; lia|].
  assert (Hcl : poll_cleared (app_poll a)) by (apply Hc; intros [=]).
  split; [|split; [reflexivity|split; [exact Hcl|]]].
  - intros g Hga Hgo Hac. cbn [app_step]. unfold timer_fires.
    destruct (interval_set (app_poll a)) eqn:Hset; [|exact Hset].
    unfold interval_callback. rewrite Hga, Hgo, Hac.
    destruct (app_poll a) as [ga gi s]. destruct ga, gi; reflexivity.
  - intros Hoff evs' g.
    pose proof (run_poll v evs' a) as (_ & _ & Hoff' & _).
    destruct (Hoff' Hoff) as (Hoff2 & Hz1 & Hz2).
    assert (Hnone : timer_fires g (app_poll (run v a evs').1)
                      (app_state (run v a evs').1) = None).
    { unfold timer_fires. rewrite Hoff2. reflexivity. }
    split; [exact Hnone|]. split; [cbn [app_step]; rewrite Hnone; reflexivity|].
    split; assumption.
Qed.

Lemma readiness_poll_once_witness :
  let a := (run PageTsx (initial_app PageTsx) double_submit).1 in
  interval_set (app_poll a) = false
  /\ app_step PageTsx a (TimerFires all_loaded) = (a, []).
Proof.
  destruct (readiness_poll_once PageTsx double_submit)
    as (_ & _ & _ & _ & Hcl & Hoff).
  assert (Hc : interval_set
                 (app_poll (run PageTsx (initial_app PageTsx) double_submit).1)
               = false).
  { apply Hcl; reflexivity. }
  split; [exact Hc|].
  apply (Hoff Hc [] all_loaded).
Defined.

(* ===================================================================== *)
(** * More on [getUrl] *)
(* ===================================================================== *)

Lemma append_inj_r (p s1 s2 : string) : p +:+ s1 = p +:+ s2 -> s1 = s2.
Proof.
  induction p as [|c p IH]; cbn; [auto|]. intros [= H]. auto.
Qed.

Lemma truthy_cases o :
  (exists s, o = Some s /\ s ≠ "" /\ truthy o = true) \/ truthy o = false.
Proof.
  destruct (truthy o) eqn:E; [left|right; reflexivity].
  destruct (truthy_true o E) as (s & -> & Hs). eauto.
Qed.

(** X1. The link of a card is ["#"] or starts with
    [https://www.youtube.com/]: whatever the identifiers hold, [getUrl]
    gives no empty link and no link to another site or scheme. *)
Theorem getUrl_href_shape (item : YouTubeSearchResult) :
  getUrl item = "#"
  \/ exists rest, getUrl item = "https://www.youtube.com/" +:+ rest.
Proof.
  unfold getUrl.
  destruct (truthy_cases (videoId (id item))) as [(s & -> & _ & ->) | ->].
  { right. exists ("watch?v=" +:+ s). reflexivity. }
  destruct (truthy_cases (playlistId (id item))) as [(s & -> & _ & ->) | ->].
  { right. exists ("playlist?list=" +:+ s). reflexivity. }
  destruct (truthy_cases (channelId (id item))) as [(s & -> & _ & ->) | ->].
  { right. exists ("channel/" +:+ s). reflexivity. }
  left. reflexivity.
Qed.

(** X2. The link determines what it points to: two items with the same
    link carry the same identifier of the same kind (the video
    identifiers agree, or neither has one and the playlist identifiers
    agree, or neither has either and the channel identifiers agree, or
    neither has any). *)
Theorem getUrl_determines_id (i1 i2 : YouTubeSearchResult) :
  getUrl i1 = getUrl i2 ->
  truthy (videoId (id i1)) = truthy (videoId (id i2))
  /\ (truthy (videoId (id i1)) = true -> videoId (id i1) = videoId (id i2))
  /\ (truthy (videoId (id i1)) = false ->
      truthy (playlistId (id i1)) = truthy (playlistId (id i2))
      /\ (truthy (playlistId (id i1)) = true ->
          playlistId (id i1) = playlistId (id i2))
      /\ (truthy (playlistId (id i1)) = false ->
          truthy (channelId (id i1)) = truthy (channelId (id i2))
          /\ (truthy (channelId (id i1)) = true ->
              channelId (id i1) = channelId (id i2)))).
Proof.
  unfold getUrl.
  destruct (truthy_cases (videoId (id i1))) as [(v1 & -> & _ & ->) | ->];
  destruct (truthy_cases (videoId (id i2))) as [(v2 & -> & _ & ->) | ->].
  - intros Hu. apply append_inj_r in Hu. cbn in Hu. subst.
    split; [reflexivity|]. split; [auto|discriminate].
  - destruct (truthy (playlistId (id i2))); [discriminate|].
    destruct (truthy (channelId (id i2))); discriminate.
  - destruct (truthy (playlistId (id i1))); [discriminate|].
    destruct (truthy (channelId (id i1))); discriminate.
  - intros Hu. split; [reflexivity|]. split; [discriminate|]. intros _.
    revert Hu.
    destruct (truthy_cases (playlistId (id i1))) as [(p1 & -> & _ & ->) | ->];
    destruct (truthy_cases (playlistId (id i2))) as [(p2 & -> & _ & ->) | ->].
    + intros Hu. apply append_inj_r in Hu. cbn in Hu. subst.
      split; [reflexivity|]. split; [auto|discriminate].
    + destruct (truthy (channelId (id i2))); discriminate.
    + destruct (truthy (channelId (id i1))); discriminate.
    + intros Hu. split; [reflexivity|]. split; [discriminate|]. intros _.
      revert Hu.
      destruct (truthy_cases (channelId (id i1))) as [(c1 & -> & _ & ->) | ->];
      destruct (truthy_cases (channelId (id i2))) as [(c2 & -> & _ & ->) | ->].
      * intros Hu. apply append_inj_r in Hu. cbn in Hu. subst. auto.
      * discriminate.
      * discriminate.
      * intros _. split; [reflexivity|discriminate].
Qed.

Lemma getUrl_determines_id_witness :
  videoId (id video_item)
  = videoId (id (mkItem (mkItemId (Some "dQw4w9WgXcQ") (Some "UC1") None "k")
                   sample_snippet)).
Proof.
  apply (getUrl_determines_id video_item
           (mkItem (mkItemId (Some "dQw4w9WgXcQ") (Some "UC1") None "k")
              sample_snippet) eq_refl); reflexivity.
Defined.

(* ===================================================================== *)
(** * More invariants of the page *)
(* ===================================================================== *)

Lemma length_le_1_cases {A} (l : list A) :
  (length l <= 1)%nat -> l = [] \/ exists x, l = [x].
Proof. destruct l as [|x [|y l]]; cbn; [auto | eauto | lia]. Qed.

Lemma start_search_busy_exact v now a e tok :
  busy_exact a -> loading (app_state a) = false ->
  busy_exact (start_search v now a e tok).1.
Proof.
  intros [Hiff Hlen] Hl.
  assert (Hnil : inflight a = []).
  { destruct (length_le_1_cases _ Hlen) as [H | (x & H)]; [exact H|].
    rewrite H in Hiff. cbn in Hiff. rewrite Hl in Hiff.
    destruct Hiff as [_ H2]. discriminate (H2 eq_refl). }
  unfold start_search.
  pose proof (handleSearch_begin_cases v now (app_state a) e tok) as H.
  destruct (handleSearch_begin v now (app_state a) e tok) as [[st1 tr] req].
  destruct H as [(-> & _ & Hst) | (r & -> & _ & ->)];
    unfold busy_exact; cbn; rewrite Hnil; cbn.
  - split; [|lia]. destruct Hst as [-> | ->]; cbn; rewrite ?Hl;
      split; discriminate.
  - split; [tauto|lia].
Qed.

Lemma app_step_busy_exact v a ev :
  busy_exact a -> busy_exact (app_step v a ev).1.
Proof.
  intros Ha. pose proof Ha as [Hiff Hlen].
  destruct ev; cbn [app_step].
  - unfold timer_fires. destruct (interval_set (app_poll a)); [|exact Ha].
    pose proof (interval_callback_loading g (app_poll a) (app_state a)) as Hl.
    destruct (interval_callback g (app_poll a) (app_state a)) as [[p st'] tr].
    unfold busy_exact. cbn in *. rewrite Hl. split; assumption.
  - exact Ha.
  - destruct (gapiInitStarted (app_poll a)); exact Ha.
  - unfold handleAuth. destruct (tokenClient (app_state a)); exact Ha.
  - destruct (gisInitStarted (app_poll a)); [|exact Ha].
    unfold token_callback. destruct (truthy access_token); exact Ha.
  - exact Ha.
  - unfold render; cbn [submit_disabled].
    destruct (loading (app_state a)) eqn:Hl; cbn [orb]; [exact Ha|].
    destruct (_ || _); [exact Ha|].
    apply start_search_busy_exact; assumption.
  - unfold render; destruct v; cbn [pagination]; [exact Ha|].
    destruct (0 <? length (results (app_state a)))%nat; [|exact Ha].
    cbn [prev_disabled].
    destruct (loading (app_state a)) eqn:Hl; cbn [orb]; [exact Ha|].
    destruct (negb _); [exact Ha|].
    apply start_search_busy_exact; assumption.
  - unfold render; destruct v; cbn [pagination]; [exact Ha|].
    destruct (0 <? length (results (app_state a)))%nat; [|exact Ha].
    cbn [next_disabled].
    destruct (loading (app_state a)) eqn:Hl; cbn [orb]; [exact Ha|].
    destruct (negb _); [exact Ha|].
    apply start_search_busy_exact; assumption.
  - destruct (inflight a !! i) as [req|] eqn:Hi; [|exact Ha].
    destruct (handleSearch_resume v (app_state a) o) as [st' tr] eqn:Hr.
    unfold busy_exact. cbn. rewrite (delete_single _ _ _ Hlen Hi). cbn.
    assert (loading st' = false) as ->.
    { destruct o; cbn in Hr; injection Hr as <- _; reflexivity. }
    split; [split; discriminate | lia].
Qed.

Lemma run_busy_exact v evs : forall a,
  busy_exact a -> busy_exact (run v a evs).1.
Proof.
  induction evs as [|ev evs IH]; intros a Ha; [exact Ha|].
  rewrite run_cons. cbn [fst]. apply IH, app_step_busy_exact, Ha.
Qed.

(** X3. The busy flag never sticks: in every state the page can reach,
    [loading] is true exactly when one search call is pending, so the
    submit button reads "Searching..." only while a call is awaited and
    the form is usable again as soon as the call settles or is
    abandoned. *)
Theorem busy_flag_exact (v : variant) (evs : list event) :
  let a := (run v (initial_app v) evs).1 in
  (loading (app_state a) = true <-> length (inflight a) = 1%nat)
  /\ (loading (app_state a) = false <-> inflight a = [])
  /\ (submit_label (render v (app_state a)) = "Searching..."
      <-> inflight a ≠ []).
Proof.
  cbn zeta.
  assert (H0 : busy_exact (initial_app v)).
  { split; [split; discriminate | cbn; lia]. }
  pose proof (run_busy_exact v evs _ H0) as [Hiff Hlen].
  set (a := (run v (initial_app v) evs).1) in *.
  destruct (length_le_1_cases _ Hlen) as [Hn | (x & Hn)];
    rewrite Hn in *; cbn in Hiff; cbn [render submit_label];
    destruct (loading (app_state a)).
  - destruct Hiff as [H _]. discriminate (H eq_refl).
  - repeat split; try tauto; try discriminate.
  - repeat split; try tauto; try discriminate.
  - destruct Hiff as [_ H]. discriminate (H eq_refl).
Qed.

(** Destructs every test an unfolded handler branches on. *)
Ltac split_tests :=
  repeat match goal with
         | |- context [if ?b then _ else _] => destruct b eqn:?
         | |- context [match ?x with _ => _ end] => destruct x eqn:?
         | H : context [match ?x with _ => _ end] |- _ => destruct x eqn:?
         end;
  simplify_eq.

Ltac unfold_step :=
  cbn [app_step]; unfold timer_fires, interval_callback, effect_cleanup,
    handleAuth, token_callback, start_search, handleSearch_begin,
    handleSearch_resume.

(** The only event that writes [accessToken] is a token response with a
    non-empty token, once the token client exists. *)
Lemma app_step_accessToken v a ev :
  accessToken (app_state (app_step v a ev).1)
  = match ev with
    | TokenResponse tok =>
        if gisInitStarted (app_poll a) && truthy tok then tok
        else accessToken (app_state a)
    | _ => accessToken (app_state a)
    end.
Proof.
  destruct ev; unfold_step; split_tests; try reflexivity;
    cbn in *; congruence.
Qed.

Lemma app_step_no_token_no_search v a ev :
  truthy (accessToken (app_state a)) = false ->
  inflight a = [] ->
  count_effect is_SearchList (app_step v a ev).2 = 0%nat
  /\ inflight (app_step v a ev).1 = []
  /\ results (app_state (app_step v a ev).1) = results (app_state a).
Proof.
  intros Ht Hin. destruct ev; unfold_step; cbn [render submit_disabled];
    rewrite ?Ht, ?Hin; cbn [negb orb]; split_tests; cbn;
    rewrite ?Hin; repeat split; auto; discriminate.
Qed.

Lemma run_no_token_no_search v evs : forall a,
  truthy (accessToken (app_state a)) = false ->
  forallb (fun ev => negb (grants_token ev)) evs = true ->
  inflight a = [] ->
  count_effect is_SearchList (run v a evs).2 = 0%nat
  /\ truthy (accessToken (app_state (run v a evs).1)) = false
  /\ inflight (run v a evs).1 = []
  /\ results (app_state (run v a evs).1) = results (app_state a).
Proof.
  induction evs as [|ev evs IH]; intros a Ht Hev Hin; [cbn; auto|].
  cbn [forallb] in Hev. apply andb_true_iff in Hev as [Hg Hev].
  rewrite run_cons. cbn [fst snd].
  destruct (app_step_no_token_no_search v a ev Ht Hin) as (Hc & Hi & Hr).
  assert (Ht' : truthy (accessToken (app_state (app_step v a ev).1)) = false).
  { rewrite app_step_accessToken. destruct ev; try exact Ht.
    cbn in Hg. apply negb_true_iff in Hg. rewrite Hg, andb_false_r. exact Ht. }
  destruct (IH _ Ht' Hev Hi) as (Hc' & Ht2 & Hi' & Hr').
  rewrite count_effect_app, Hc, Hc', Hr', Hr. auto.
Qed.

(** X4. Nothing is searched before the user is authorized: as long as no
    token response has delivered a non-empty access token, no event
    issues a call to the search client, the access token stays unset and
    the result list stays empty. *)
Theorem no_search_before_token (v : variant) (evs : list event) :
  forallb (fun ev => negb (grants_token ev)) evs = true ->
  let '(a, tr) := run v (initial_app v) evs in
  count_effect is_SearchList tr = 0%nat
  /\ accessToken (app_state a) = None
  /\ inflight a = []
  /\ results (app_state a) = [].
Proof.
  intros Hev.
  destruct (run_no_token_no_search v evs (initial_app v) eq_refl Hev eq_refl)
    as (Hc & Ht & Hi & Hr).
  assert (Hnone : forall evs' a,
            accessToken (app_state a) = None ->
            forallb (fun ev => negb (grants_token ev)) evs' = true ->
            accessToken (app_state (run v a evs').1) = None).
  { induction evs' as [|ev evs' IH]; intros a Ha He; [exact Ha|].
    cbn [forallb] in He. apply andb_true_iff in He as [Hg He].
    rewrite run_cons. cbn [fst]. apply IH; [|exact He].
    rewrite app_step_accessToken. destruct ev; try exact Ha.
    cbn in Hg. apply negb_true_iff in Hg. rewrite Hg, andb_false_r. exact Ha. }
  specialize (Hnone evs (initial_app v) eq_refl Hev).
  destruct (run v (initial_app v) evs) as [a tr]. cbn in *. auto.
Qed.

Lemma no_search_before_token_witness :
  let '(a, tr) :=
    run Part000 (initial_app Part000)
      [TimerFires all_loaded; EditParam "q" (JStr "cats");
       SubmitForm 1700000000000; ClickNext 1700000000000;
       TokenResponse (Some "")] in
  count_effect is_SearchList tr = 0%nat
  /\ accessToken (app_state a) = None
  /\ inflight a = []
  /\ results (app_state a) = [].
Proof.
  apply (no_search_before_token Part000
           [TimerFires all_loaded; EditParam "q" (JStr "cats");
            SubmitForm 1700000000000; ClickNext 1700000000000;
            TokenResponse (Some "")]).
  reflexivity.
Defined.

Lemma app_step_token_kept v a ev :
  truthy (accessToken (app_state a)) = true ->
  truthy (accessToken (app_state (app_step v a ev).1)) = true.
Proof.
  intros Ht. rewrite app_step_accessToken. destruct ev; try exact Ht.
  destruct (gisInitStarted (app_poll a)); [|exact Ht].
  cbn [andb]. destruct (truthy access_token) eqn:E; [exact E|exact Ht].
Qed.

Lemma run_token_kept v evs : forall a,
  truthy (accessToken (app_state a)) = true ->
  truthy (accessToken (app_state (run v a evs).1)) = true.
Proof.
  induction evs as [|ev evs IH]; intros a Ht; [exact Ht|].
  rewrite run_cons. cbn [fst]. apply IH, app_step_token_kept, Ht.
Qed.

Lemma run_token_never_empty v evs : forall a,
  accessToken (app_state a) ≠ Some "" ->
  accessToken (app_state (run v a evs).1) ≠ Some "".
Proof.
  induction evs as [|ev evs IH]; intros a Ha; [exact Ha|].
  rewrite run_cons. cbn [fst]. apply IH.
  rewrite app_step_accessToken. destruct ev; try exact Ha.
  destruct (gisInitStarted (app_poll a)); [|exact Ha]. cbn [andb].
  destruct (truthy access_token) eqn:E; [|exact Ha].
  intros ->. discriminate E.
Qed.

(** X5. Once granted, the access token is never taken away: from any
    state the page can reach in which the token is set, it stays set
    through every further event, a failed search included; and the
    stored token is never the empty string. *)
Theorem access_token_persists (v : variant) (evs evs' : list event) :
  let a := (run v (initial_app v) evs).1 in
  let a' := (run v a evs').1 in
  accessToken (app_state a) ≠ Some ""
  /\ (truthy (accessToken (app_state a)) = true ->
      truthy (accessToken (app_state a')) = true
      /\ submit_disabled (render v (app_state a')) = loading (app_state a')).
Proof.
  cbn zeta. split.
  - apply run_token_never_empty. discriminate.
  - intros Ht. pose proof (run_token_kept v evs' _ Ht) as Ht'.
    split; [exact Ht'|]. cbn [render submit_disabled]. rewrite Ht'.
    cbn [negb]. apply orb_false_r.
Qed.

Lemma access_token_persists_witness :
  let a := (run PageTsx (initial_app PageTsx) double_submit).1 in
  truthy (accessToken
            (app_state
               (run PageTsx a [CallSettles 0 (Rejected quota_exceeded);
                               TokenResponse None]).1)) = true.
Proof.
  apply (access_token_persists PageTsx double_submit
           [CallSettles 0 (Rejected quota_exceeded); TokenResponse None]).
  reflexivity.
Defined.

(** Only a tick of the poll that initialises the identity library
    touches the token client and its flag, and it sets both. *)
Lemma app_step_tokenClient v a ev :
  (tokenClient (app_state (app_step v a ev).1),
   gisInitStarted (app_poll (app_step v a ev).1))
  = match ev with
    | TimerFires g =>
        if interval_set (app_poll a) && google_defined g && google_accounts g
           && negb (gisInitStarted (app_poll a))
        then (Some (new_token_client g), true)
        else (tokenClient (app_state a), gisInitStarted (app_poll a))
    | _ => (tokenClient (app_state a), gisInitStarted (app_poll a))
    end.
Proof.
  destruct ev; unfold_step;
    split_tests; try reflexivity; cbn in *; congruence.
Qed.

Lemma app_step_token_client_ready v a ev :
  token_client_ready a -> token_client_ready (app_step v a ev).1.
Proof.
  unfold token_client_ready. intros [Hiff Hscope].
  pose proof (app_step_tokenClient v a ev) as H.
  remember (app_step v a ev).1 as a' eqn:Ea'. clear Ea'.
  destruct ev;
    try (injection H as -> ->; split; [exact Hiff | exact Hscope]).
  destruct (_ && _) in H; injection H as -> ->.
  - split; [split; eauto|]. intros cid scope [= <- <-]. reflexivity.
  - split; [exact Hiff | exact Hscope].
Qed.

Lemma run_token_client_ready v evs : forall a,
  token_client_ready a -> token_client_ready (run v a evs).1.
Proof.
  induction evs as [|ev evs IH]; intros a Ha; [exact Ha|].
  rewrite run_cons. cbn [fst]. apply IH, app_step_token_client_ready, Ha.
Qed.

(** X6. The Connect button works exactly once the identity library has
    been seen by the poll: in every state the page can reach, the token
    client is present exactly when its initialisation has started, it
    asks for the read-only YouTube scope, and a click on the button
    leaves the state as it is and either requests an access token with
    the account chooser or, before that, only shows the "not ready"
    alert. *)
Theorem handleAuth_ready_iff_initialised (v : variant) (evs : list event) :
  let a := (run v (initial_app v) evs).1 in
  (is_Some (tokenClient (app_state a)) <-> gisInitStarted (app_poll a) = true)
  /\ (forall cid scope,
        tokenClient (app_state a) = Some (mkTokenClient cid scope) ->
        scope = "https://www.googleapis.com/auth/youtube.readonly")
  /\ app_step v a ClickAuth
     = (a, [if gisInitStarted (app_poll a)
            then RequestAccessToken "select_account"
            else Alert "Google Auth library not ready yet."]).
Proof.
  cbn zeta.
  assert (H0 : token_client_ready (initial_app v)).
  { split; [|discriminate]. cbn. split; [intros [? [=]] | discriminate]. }
  pose proof (run_token_client_ready v evs _ H0) as [Hiff Hscope].
  set (a := (run v (initial_app v) evs).1) in *.
  split; [exact Hiff|]. split; [exact Hscope|].
  cbn [app_step]. unfold handleAuth. destruct a as [st p l]. cbn in *.
  destruct (tokenClient st) as [c|] eqn:E.
  - rewrite (proj1 Hiff ltac:(eauto)). reflexivity.
  - destruct (gisInitStarted p); [|reflexivity].
    destruct (proj2 Hiff eq_refl) as [? [=]].
Qed.

Lemma app_step_poll_running v a ev :
  is_Unmount ev = false ->
  interval_set (app_poll a)
  = negb (gapiInitStarted (app_poll a) && gisInitStarted (app_poll a)) ->
  interval_set (app_poll (app_step v a ev).1)
  = negb (gapiInitStarted (app_poll (app_step v a ev).1)
          && gisInitStarted (app_poll (app_step v a ev).1)).
Proof.
  intros Hu Hp. destruct a as [st [ga gi s] l]. cbn in Hp. subst s.
  destruct ev; try discriminate Hu; unfold_step;
    split_tests; cbn in *; try reflexivity; try congruence.
  all: destruct ga, gi; cbn in *; congruence.
Qed.

(** X15. The poll does not give up early: as long as the view is not
    torn down, the interval is still set exactly while one of the two
    libraries has not been initialised yet, however many ticks found
    nothing. *)
Theorem readiness_poll_keeps_running (v : variant) (evs : list event) :
  forallb (fun ev => negb (is_Unmount ev)) evs = true ->
  let a := (run v (initial_app v) evs).1 in
  interval_set (app_poll a)
  = negb (gapiInitStarted (app_poll a) && gisInitStarted (app_poll a)).
Proof.
  intros Hev. cbn zeta.
  assert (H : forall evs a,
            forallb (fun ev => negb (is_Unmount ev)) evs = true ->
            interval_set (app_poll a)
            = negb (gapiInitStarted (app_poll a) && gisInitStarted (app_poll a)) ->
            interval_set (app_poll (run v a evs).1)
            = negb (gapiInitStarted (app_poll (run v a evs).1)
                    && gisInitStarted (app_poll (run v a evs).1))).
  { clear. induction evs as [|ev evs IH]; intros a He Ha; [exact Ha|].
    cbn [forallb] in He. apply andb_true_iff in He as [Hu He].
    rewrite run_cons. cbn [fst]. apply IH; [exact He|].
    apply app_step_poll_running; [|exact Ha].
    apply negb_true_iff, Hu. }
  apply H; [exact Hev | reflexivity].
Qed.

Lemma readiness_poll_keeps_running_witness :
  interval_set
    (app_poll
       (run Part000 (initial_app Part000)
          [TimerFires (mkGlobals false false false None);
           TimerFires only_gapi; TimerFires only_gapi]).1) = true.
Proof.
  rewrite (readiness_poll_keeps_running Part000
             [TimerFires (mkGlobals false false false None);
              TimerFires only_gapi; TimerFires only_gapi] eq_refl).
  reflexivity.
Defined.

(* ===================================================================== *)
(** * The form controls *)
(* ===================================================================== *)

Lemma selectFields_ok v :
  forallb (fun f => forallb (field_ok v f) (field_options f)) (selectFields v)
  = true.
Proof. destruct v; vm_compute; reflexivity. Qed.

Lemma form_event_edit v k x :
  form_event v (EditParam k x) = true ->
  is_Some (initial_params v !! k) /\ value_ok v k x = true.
Proof.
  cbn [form_event]. intros H. apply orb_true_iff in H as [H|H].
  - apply andb_true_iff in H as [Hk Hx]. apply String.eqb_eq in Hk. subst k.
    destruct x; try discriminate Hx.
    split; [destruct v; vm_compute; eauto | destruct v; reflexivity].
  - apply existsb_exists in H as (f & Hf & H).
    apply andb_true_iff in H as [Hk H]. apply String.eqb_eq in Hk. subst k.
    apply existsb_exists in H as (o & Ho & H).
    apply bool_decide_eq_true in H.
    pose proof (selectFields_ok v) as Hok.
    rewrite forallb_forall in Hok. specialize (Hok f Hf).
    rewrite forallb_forall in Hok. specialize (Hok o Ho).
    unfold field_ok in Hok. rewrite H in Hok.
    apply andb_true_iff in Hok as [Hok Hv].
    apply andb_true_iff in Hok as [Hdom _].
    apply bool_decide_eq_true in Hdom. auto.
Qed.

Lemma params_shape_insert v p k x :
  params_shape v p -> is_Some (initial_params v !! k) ->
  value_ok v k x = true -> params_shape v (<[k := x]> p).
Proof.
  intros (Hdom & Hq & Hv) Hk Hok. unfold value_ok in Hok.
  apply andb_true_iff in Hok as [Hokq Hokv].
  split; [|split].
  - rewrite <- Hdom. apply dom_insert_lookup_L.
    apply elem_of_dom. rewrite Hdom. apply elem_of_dom, Hk.
  - destruct (String.eqb_spec k "q") as [->|Hne].
    + destruct x; try discriminate Hokq. rewrite lookup_insert_eq. eauto.
    + rewrite lookup_insert_ne by exact Hne. exact Hq.
  - destruct v; [|exact I].
    apply andb_true_iff in Hokv as [Hm Hpa]. destruct Hv as [Hvm Hvp]. split.
    + destruct (String.eqb_spec k "maxResults") as [->|Hne].
      * destruct x; try discriminate Hm. rewrite lookup_insert_eq.
        exists n. split; [reflexivity|lia].
      * rewrite lookup_insert_ne by exact Hne. exact Hvm.
    + destruct (String.eqb_spec k "publishedAfter") as [->|Hne].
      * rewrite lookup_insert_eq.
        apply orb_true_iff in Hpa as [Hpa|Hpa];
          [apply orb_true_iff in Hpa as [Hpa|Hpa]|];
          apply bool_decide_eq_true in Hpa; subst x; auto.
      * rewrite !lookup_insert_ne by exact Hne. exact Hvp.
Qed.

(** Only an edit of the form writes [params]. *)
Lemma app_step_params v a ev :
  params (app_state (app_step v a ev).1)
  = match ev with
    | EditParam k x => <[k := x]> (params (app_state a))
    | _ => params (app_state a)
    end.
Proof.
  destruct ev; unfold_step; split_tests; try reflexivity;
    cbn in *; congruence.
Qed.

Lemma initial_params_shape v : params_shape v (initial_params v).
Proof.
  split; [reflexivity|]. split; [exists ""; destruct v; reflexivity|].
  destruct v; [|exact I]. split.
  - exists 50. split; [reflexivity|lia].
  - left. reflexivity.
Qed.

Lemma app_step_params_shape v a ev :
  form_event v ev = true ->
  params_shape v (params (app_state a)) ->
  params_shape v (params (app_state (app_step v a ev).1)).
Proof.
  intros He Ha. rewrite app_step_params. destruct ev; try exact Ha.
  destruct (form_event_edit v key value He) as [Hk Hok].
  apply params_shape_insert; assumption.
Qed.

Lemma run_params_shape v evs : forall a,
  forallb (form_event v) evs = true ->
  params_shape v (params (app_state a)) ->
  params_shape v (params (app_state (run v a evs).1)).
Proof.
  induction evs as [|ev evs IH]; intros a Hev Ha; [exact Ha|].
  cbn [forallb] in Hev. apply andb_true_iff in Hev as [He Hev].
  rewrite run_cons. cbn [fst]. apply IH; [exact Hev|].
  apply app_step_params_shape; assumption.
Qed.

(** X8. The form keeps the parameter record in shape.  Whatever the user
    types and picks, the record has exactly the keys it started with
    (none is added, none is lost), the query is a string, and in
    [page.tsx] Max Results is a number from 5 to 50 and Published After
    is one of ["any"], ["week"] and ["day"]. *)
Theorem form_keeps_params_shape (v : variant) (evs : list event) :
  forallb (form_event v) evs = true ->
  let p := params (app_state (run v (initial_app v) evs).1) in
  dom p = dom (initial_params v)
  /\ (exists s, p !! "q" = Some (JStr s))
  /\ (v = PageTsx ->
      (exists n, p !! "maxResults" = Some (JNum n) /\ 5 <= n <= 50)
      /\ (p !! "publishedAfter" = Some (JStr "any")
          \/ p !! "publishedAfter" = Some (JStr "week")
          \/ p !! "publishedAfter" = Some (JStr "day"))).
Proof.
  intros Hev.
  destruct (run_params_shape v evs (initial_app v) Hev (initial_params_shape v))
    as (Hdom & Hq & Hv).
  cbn zeta. split; [exact Hdom|]. split; [exact Hq|].
  intros ->. exact Hv.
Qed.

Lemma form_keeps_params_shape_witness :
  let p := params (app_state (run PageTsx (initial_app PageTsx) form_visit).1) in
  exists n, p !! "maxResults" = Some (JNum n) /\ 5 <= n <= 50.
Proof.
  apply (form_keeps_params_shape PageTsx form_visit eq_refl). reflexivity.
Defined.

(* ===================================================================== *)
(** * The requests the page sends *)
(* ===================================================================== *)

Lemma requests_app tr1 tr2 : requests (tr1 ++ tr2) = requests tr1 ++ requests tr2.
Proof.
  induction tr1 as [|e tr1 IH]; [reflexivity|].
  destruct e; cbn; rewrite IH; reflexivity.
Qed.

Lemma handleSearch_begin_request v now st e tok :
  match (handleSearch_begin v now st e tok).2 with
  | Some req =>
      requests (handleSearch_begin v now st e tok).1.2 = [req]
      /\ truthy (accessToken st) = true
      /\ match v with
         | PageTsx =>
             exists d, publishedAfterDate now (params st) = inr d
                       /\ req = <["publishedAfter" := d]>
                                  (spread_request tok (params st))
         | Part000 => req = spread_request tok (params st)
         end
  | None => requests (handleSearch_begin v now st e tok).1.2 = []
  end.
Proof.
  unfold handleSearch_begin.
  destruct (truthy (accessToken st)); cbn [negb]; [|destruct e; reflexivity].
  destruct v.
  - destruct (publishedAfterDate now (params st)) as [err|d];
      [destruct e; reflexivity|].
    cbn [fst snd search_request]. split; [destruct e; reflexivity|]. eauto.
  - cbn [fst snd search_request]. split; [destruct e; reflexivity|]. auto.
Qed.

Lemma start_search_requests v now a e tok :
  requests (start_search v now a e tok).2
  = requests (handleSearch_begin v now (app_state a) e tok).1.2.
Proof.
  unfold start_search.
  destruct (handleSearch_begin v now (app_state a) e tok) as [[st tr] req].
  reflexivity.
Qed.

(** Which events send a request: a submission of the form with a
    non-empty query, with no cursor; and, in [part_000], a click on a
    pagination button whose cursor is non-empty, with that cursor. *)
Lemma app_step_requests v a ev :
  requests (app_step v a ev).2 = []
  \/ exists now e tok req,
       requests (app_step v a ev).2 = [req]
       /\ (handleSearch_begin v now (app_state a) e tok).2 = Some req
       /\ loading (app_state a) = false
       /\ ((ev = SubmitForm now /\ tok = None
            /\ query_filled (app_state a) = true)
           \/ (v = Part000 /\ truthy tok = true
               /\ ((ev = ClickPrevious now /\ tok = prevPageToken (app_state a))
                   \/ (ev = ClickNext now
                       /\ tok = nextPageToken (app_state a))))).
Proof.
  destruct ev; cbn [app_step];
    try (left; unfold timer_fires, interval_callback, effect_cleanup,
           handleAuth; split_tests; reflexivity).
  - unfold render; cbn [submit_disabled].
    destruct (loading (app_state a)) eqn:Hl; cbn [orb]; [left; reflexivity|].
    destruct (negb (truthy _)); cbn [orb]; [left; reflexivity|].
    destruct (query_filled (app_state a)) eqn:Hq; cbn [negb];
      [|left; reflexivity].
    rewrite start_search_requests.
    pose proof (handleSearch_begin_request v now (app_state a) true None) as H.
    destruct ((handleSearch_begin v now (app_state a) true None).2) as [req|] eqn:E;
      [|left; exact H].
    right. exists now, true, None, req. destruct H as (H1 & _ & _).
    rewrite E. repeat split; auto.
  - unfold render; destruct v; cbn [pagination]; [left; reflexivity|].
    destruct (0 <? length (results (app_state a)))%nat; [|left; reflexivity].
    cbn [prev_disabled].
    destruct (loading (app_state a)) eqn:Hl; cbn [orb]; [left; reflexivity|].
    destruct (truthy (prevPageToken (app_state a))) eqn:Ht; cbn [negb];
      [|left; reflexivity].
    rewrite start_search_requests.
    pose proof (handleSearch_begin_request Part000 now (app_state a) false
                  (prevPageToken (app_state a))) as H.
    destruct (prevPageToken (app_state a)) as [c|] eqn:Ec; [|discriminate Ht].
    destruct ((handleSearch_begin Part000 now (app_state a) false (Some c)).2)
      as [req|] eqn:E; [|left; exact H].
    right. exists now, false, (Some c), req. destruct H as (H1 & _ & _).
    rewrite E. split; [exact H1|]. split; [reflexivity|]. split; [reflexivity|].
    right. split; [reflexivity|]. split; [exact Ht|]. left. auto.
  - unfold render; destruct v; cbn [pagination]; [left; reflexivity|].
    destruct (0 <? length (results (app_state a)))%nat; [|left; reflexivity].
    cbn [next_disabled].
    destruct (loading (app_state a)) eqn:Hl; cbn [orb]; [left; reflexivity|].
    destruct (truthy (nextPageToken (app_state a))) eqn:Ht; cbn [negb];
      [|left; reflexivity].
    rewrite start_search_requests.
    pose proof (handleSearch_begin_request Part000 now (app_state a) false
                  (nextPageToken (app_state a))) as H.
    destruct (nextPageToken (app_state a)) as [c|] eqn:Ec; [|discriminate Ht].
    destruct ((handleSearch_begin Part000 now (app_state a) false (Some c)).2)
      as [req|] eqn:E; [|left; exact H].
    right. exists now, false, (Some c), req. destruct H as (H1 & _ & _).
    rewrite E. split; [exact H1|]. split; [reflexivity|]. split; [reflexivity|].
    right. split; [reflexivity|]. split; [exact Ht|]. right. auto.
  - left. destruct (inflight a !! i); [|reflexivity].
    destruct o; reflexivity.
Qed.

Lemma params_shape_reserved v p :
  params_shape v p -> p !! "pageToken" = None /\ p !! "part" = None.
Proof.
  intros (Hdom & _). split; apply not_elem_of_dom; rewrite Hdom;
    apply not_elem_of_dom; destruct v; reflexivity.
Qed.

Lemma query_filled_true st :
  query_filled st = true -> exists q, params st !! "q" = Some (JStr q) /\ q ≠ "".
Proof.
  unfold query_filled. destruct (params st !! "q") as [[| |q| |]|]; try discriminate.
  intros H. exists q. split; [reflexivity|].
  destruct (String.eqb_spec q ""); [discriminate|assumption].
Qed.

Lemma run_requests_Forall v (P : gmap string jsval -> Prop) :
  (forall a ev, params_shape v (params (app_state a)) ->
     Forall P (requests (app_step v a ev).2)) ->
  forall evs a,
    forallb (form_event v) evs = true ->
    params_shape v (params (app_state a)) ->
    Forall P (requests (run v a evs).2).
Proof.
  intros Hstep. induction evs as [|ev evs IH]; intros a Hev Ha; [constructor|].
  rewrite run_cons. cbn [snd]. rewrite requests_app. apply Forall_app. split.
  - apply Hstep, Ha.
  - cbn [forallb] in Hev. apply andb_true_iff in Hev as [He Hev].
    apply IH; [exact Hev|].
    apply app_step_params_shape; assumption.
Qed.

(** X14. Every request [part_000] issues, in any history of the form,
    has [part] equal to [['snippet']], no [publishedAfter] at all, and a
    [pageToken] that is null or a non-empty cursor string. *)
Theorem part_000_requests (evs : list event) :
  forallb (form_event Part000) evs = true ->
  Forall
    (fun req : gmap string jsval =>
       req !! "part" = Some (JArr ["snippet"])
       /\ req !! "publishedAfter" = None
       /\ (req !! "pageToken" = Some JNull
           \/ exists c, c ≠ "" /\ req !! "pageToken" = Some (JStr c))
       /\ exists q, req !! "q" = Some (JStr q))
    (requests (run Part000 (initial_app Part000) evs).2).
Proof.
  intros Hev.
  apply run_requests_Forall; [|exact Hev|apply initial_params_shape].
  clear. intros a ev Hshape.
  destruct (app_step_requests Part000 a ev)
    as [-> | (now & e & tok & req & -> & Hb & _ & Hev)]; [constructor|].
  pose proof (handleSearch_begin_request Part000 now (app_state a) e tok) as H.
  rewrite Hb in H. destruct H as (_ & _ & ->).
  destruct (params_shape_reserved _ _ Hshape) as [Htok Hpart].
  destruct Hshape as (Hdom & (q & Hq) & _).
  assert (Hpa : params (app_state a) !! "publishedAfter" = None).
  { apply not_elem_of_dom. rewrite Hdom. apply not_elem_of_dom. reflexivity. }
  constructor; [|constructor].
  rewrite !spread_request_lookup, Htok, Hpart, Hpa, Hq.
  split; [reflexivity|]. split; [reflexivity|]. split; [|eauto].
  destruct Hev as [(_ & -> & _) | (_ & Ht & _)]; [left; reflexivity|].
  destruct (truthy_true _ Ht) as (c & -> & Hc). right. eauto.
Qed.

Lemma part_000_requests_witness :
  Forall
    (fun req : gmap string jsval => req !! "publishedAfter" = None)
    (requests
       (run Part000 (initial_app Part000)
          [TimerFires all_loaded; TokenResponse (Some "ya29.a0AfH6");
           EditParam "q" (JStr "cats"); SubmitForm 1700000000000]).2).
Proof.
  eapply Forall_impl;
    [apply (part_000_requests
              [TimerFires all_loaded; TokenResponse (Some "ya29.a0AfH6");
               EditParam "q" (JStr "cats"); SubmitForm 1700000000000] eq_refl)
    | intros req H; apply H].
Defined.

(** X10. A pagination click sends the stored cursor with the form as it
    is now, not as it was when the cursor was obtained: in [part_000],
    with results shown, no search in progress, a token and a non-empty
    forward cursor [c], editing a parameter and then clicking Next Page
    issues one request that carries [c] as [pageToken] and the edited
    value under its key, the rest of the parameters unchanged. *)
Theorem pagination_sends_current_form
    (a : App) (now : Z) (k : string) (x : jsval) (c : string) :
  loading (app_state a) = false ->
  results (app_state a) ≠ [] ->
  truthy (accessToken (app_state a)) = true ->
  nextPageToken (app_state a) = Some c -> c ≠ "" ->
  params (app_state a) !! "pageToken" = None ->
  k ≠ "pageToken" ->
  let a1 := (app_step Part000 a (EditParam k x)).1 in
  exists req,
    requests (app_step Part000 a1 (ClickNext now)).2 = [req]
    /\ inflight (app_step Part000 a1 (ClickNext now)).1 = inflight a ++ [req]
    /\ req !! "pageToken" = Some (JStr c)
    /\ req !! k = Some x
    /\ forall k' y, k' ≠ k -> params (app_state a) !! k' = Some y ->
         req !! k' = Some y.
Proof.
  intros Hl Hres Ht Hn Hc Hp Hk. cbn zeta. cbn [app_step fst app_state].
  unfold render. cbn [pagination results setParams loading nextPageToken].
  destruct (results (app_state a)) as [|item rest] eqn:Er; [contradiction|].
  cbn [length Nat.ltb Nat.leb next_disabled]. rewrite Hl, Hn.
  rewrite (truthy_Some c Hc). cbn [orb negb].
  unfold start_search, handleSearch_begin.
  cbn [app_state accessToken setParams params inflight app_poll].
  rewrite Ht. cbn [negb search_request fst snd requests].
  eexists. split; [reflexivity|]. split; [reflexivity|].
  rewrite !spread_request_lookup.
  rewrite lookup_insert_ne by congruence. rewrite Hp. cbn.
  rewrite lookup_insert_eq. repeat split.
  intros k' y Hk' Hy. rewrite spread_request_lookup.
  rewrite lookup_insert_ne by congruence. rewrite Hy. reflexivity.
Qed.

Lemma pagination_sends_current_form_witness :
  exists req,
    requests
      (app_step Part000
         (app_step Part000 (mkApp first_page poll_mounted [])
            (EditParam "q" (JStr "dogs"))).1
         (ClickNext 1700000000000)).2 = [req]
    /\ req !! "pageToken" = Some (JStr "CAoQAA")
    /\ req !! "q" = Some (JStr "dogs").
Proof.
  destruct (pagination_sends_current_form (mkApp first_page poll_mounted [])
              1700000000000 "q" (JStr "dogs") "CAoQAA"
              eq_refl ltac:(discriminate) eq_refl eq_refl ltac:(discriminate)
              eq_refl ltac:(discriminate))
    as (req & H1 & _ & H3 & H4 & _).
  exists req. auto.
Defined.

(** X11. After a successful search the page shows one card per returned
    item, linked by [getUrl], in the order of the response in [page.tsx]
    and in the opposite order in [part_000]; and [part_000] shows its
    pagination buttons exactly when the response had at least one item,
    so a page without items cannot be left through them whatever cursors
    came with it. *)
Theorem cards_after_success
    (v : variant) (now : Z) (search_list : gmap string jsval -> settled)
    (st : State) (e : bool) (tok : option string)
    (st1 : State) (tr : list effect) (req : gmap string jsval)
    (r : Response.t) :
  handleSearch_begin v now st e tok = (st1, tr, Some req) ->
  search_list req = Fulfilled r ->
  let view := render v (handleSearch v now search_list st e tok).1 in
  card_hrefs view
  = match v with
    | PageTsx => map getUrl (Response.items r)
    | Part000 => rev (map getUrl (Response.items r))
    end
  /\ length (card_hrefs view) = length (Response.items r)
  /\ submit_label view = "EXECUTE SEARCH"
  /\ (v = Part000 -> (pagination view = None <-> Response.items r = [])).
Proof.
  intros Hb Hr. cbn zeta. unfold handleSearch. rewrite Hb.
  cbn [handleSearch_resume]. rewrite Hr. cbn -[or_null].
  split; [destruct v; cbn; [reflexivity | apply map_rev]|].
  split; [destruct v; cbn; rewrite ?length_map, ?length_rev, ?length_map;
          reflexivity|].
  split; [reflexivity|].
  intros ->. cbn. destruct (Response.items r) as [|i l] using rev_ind.
  - cbn. tauto.
  - rewrite rev_app_distr. cbn. split; [discriminate|].
    intros H. destruct l; discriminate H.
Qed.

Lemma cards_after_success_witness :
  card_hrefs
    (render Part000
       (handleSearch Part000 0 (fun _ => Fulfilled two_items)
          (authorized Part000) true None).1)
  = ["https://www.youtube.com/playlist?list=PL590L5WQmH8f";
     "https://www.youtube.com/watch?v=dQw4w9WgXcQ"].
Proof.
  rewrite (proj1 (cards_after_success Part000 0 (fun _ => Fulfilled two_items)
                    (authorized Part000) true None
                    (setLoading true (authorized Part000))
                    [PreventDefault;
                     SearchList (search_request Part000 None
                                   (params (authorized Part000)) JUndefined)]
                    (search_request Part000 None (params (authorized Part000))
                       JUndefined)
                    two_items eq_refl eq_refl)).
  reflexivity.
Defined.

(** X12. A clock the date cannot represent abandons the search instead
    of sending it: in [page.tsx], with the filter at ["week"] or ["day"]
    and the shifted instant outside the range of [Date], [toISOString]
    throws inside the [try]; no call is issued, the [RangeError] is
    logged as a failed search, and the state is as before with the busy
    flag down. *)
Theorem handleSearch_invalid_date
    (now : Z) (search_list : gmap string jsval -> settled)
    (st : State) (e : bool) (tok : option string) (delta : Z) :
  truthy (accessToken st) = true ->
  (params st !! "publishedAfter" = Some (JStr "week")
   /\ delta = 7 * 24 * 60 * 60 * 1000)
  \/ (params st !! "publishedAfter" = Some (JStr "day")
      /\ delta = 24 * 60 * 60 * 1000) ->
  JSDate.maxTime < Z.abs (now - delta) ->
  handleSearch PageTsx now search_list st e tok
  = (setLoading false st,
     (if e then [PreventDefault] else [])
     ++ [ConsoleError "Search failed:" RangeError]).
Proof.
  intros Ht Hf Hrange.
  assert (Hd : publishedAfterDate now (params st) = inl RangeError).
  { unfold publishedAfterDate.
    assert (Hiso : JSDate.toISOString (now - delta) = None).
    { unfold JSDate.toISOString, JSDate.TimeClip.
      destruct (Z.leb_spec (Z.abs (now - delta)) JSDate.maxTime); [lia|reflexivity]. }
    destruct Hf as [[E ->] | [E ->]]; rewrite E; cbn [is_str].
    - change (String.eqb "week" "week") with true. cbv iota.
      rewrite Hiso. reflexivity.
    - change (String.eqb "day" "week") with false.
      change (String.eqb "day" "day") with true. cbv iota.
      rewrite Hiso. reflexivity. }
  unfold handleSearch, handleSearch_begin. rewrite Ht, Hd. cbn [negb].
  destruct st; reflexivity.
Qed.

Lemma handleSearch_invalid_date_witness :
  handleSearch PageTsx (-8640000000000000) (fun _ => Fulfilled two_items)
    (with_recency PageTsx "day") true None
  = (with_recency PageTsx "day",
     [PreventDefault; ConsoleError "Search failed:" RangeError]).
Proof.
  rewrite (handleSearch_invalid_date (-8640000000000000)
             (fun _ => Fulfilled two_items) (with_recency PageTsx "day")
             true None (24 * 60 * 60 * 1000) eq_refl
             (or_intror (conj eq_refl eq_refl)) eq_refl).
  reflexivity.
Defined.

(* ===================================================================== *)
(** * Numbers in the form *)
(* ===================================================================== *)

Example option_value_number : option_value (OptNum 25) = Some "25".
Proof. reflexivity. Qed.

Example js_String_unsafe : js_String 9007199254740992 = None.
Proof. reflexivity. Qed.

Example js_Number_digits : js_Number "007" = Some 7.
Proof. reflexivity. Qed.

Example js_Number_empty : js_Number "" = Some 0.
Proof. reflexivity. Qed.

Example js_Number_text : js_Number "relevance" = None.
Proof. reflexivity. Qed.

(** [Number(String(n))] is [n] for every integer the model prints. *)
Lemma js_Number_String n s : js_String n = Some s -> js_Number s = Some n.
Proof.
  unfold js_String, js_Number.
  destruct (Z.leb_spec 0 n) as [H0|]; [|discriminate].
  destruct (Z.leb_spec n MAX_SAFE_INTEGER) as [Hmax|]; [|discriminate].
  cbn [andb]. intros [= <-].
  destruct n as [|p|p]; [reflexivity| |lia].
  cbn [Z.to_int NilZero.string_of_int].
  pose proof (NilZero.usu (Pos.to_uint p) (Unsigned.to_uint_nonnil p)) as Hu.
  destruct (String.eqb_spec (NilZero.string_of_uint (Pos.to_uint p)) "") as [E|_].
  { rewrite E in Hu. discriminate Hu. }
  rewrite Hu.
  assert (Hz : Z.of_uint (Pos.to_uint p) = Z.pos p).
  { unfold Z.of_uint. rewrite Unsigned.of_to. reflexivity. }
  rewrite Hz. destruct (Z.leb_spec (Z.pos p) MAX_SAFE_INTEGER); [reflexivity|lia].
Qed.

Lemma select_onChange_number v (f : SelectField) n s (st : State) :
  js_String n = Some s ->
  field_key f = "maxResults" ->
  exists st',
    select_onChange v f (OptNum n) st = Some st'
    /\ params st' !! "maxResults"
       = Some (match v with PageTsx => JNum n | Part000 => JStr s end)
    /\ forall k, k ≠ "maxResults" -> params st' !! k = params st !! k.
Proof.
  intros Hs Hk. unfold select_onChange, select_stored.
  cbn [option_value]. rewrite Hs, Hk. cbn [mbind option_bind].
  change (String.eqb "maxResults" "maxResults") with true. cbv iota.
  rewrite (js_Number_String n s Hs).
  destruct v; cbn [fmap option_fmap option_map mbind option_bind];
    (eexists; split; [reflexivity|]); cbn [params setParams];
    (split; [apply lookup_insert_eq|]);
    intros k Hne; apply lookup_insert_ne; congruence.
Qed.

(** X9. Picking a Max Results option stores a number in [page.tsx] and
    a string in [part_000]: every option of the Max Results select is a
    number [n] from 5 to 50, [page.tsx] puts [n] itself under
    [maxResults] (the value attribute converted back with [Number]),
    while [part_000] puts the decimal text of [n] there, so that the
    parameter declared as a number holds a string from then on.  Every
    other parameter is left as it was. *)
Theorem select_onChange_maxResults
    (v : variant) (f : SelectField) (o : select_option) (st : State) :
  In f (selectFields v) -> field_key f = "maxResults" ->
  In o (field_options f) ->
  exists n s,
    o = OptNum n /\ 5 <= n <= 50 /\ js_String n = Some s
    /\ (exists st',
          select_onChange PageTsx f o st = Some st'
          /\ params st' !! "maxResults" = Some (JNum n)
          /\ forall k, k ≠ "maxResults" -> params st' !! k = params st !! k)
    /\ (exists st',
          select_onChange Part000 f o st = Some st'
          /\ params st' !! "maxResults" = Some (JStr s)
          /\ forall k, k ≠ "maxResults" -> params st' !! k = params st !! k).
Proof.
  intros Hf Hk Ho.
  assert (Hopt : exists n s, o = OptNum n /\ 5 <= n <= 50 /\ js_String n = Some s).
  { destruct v; cbn in Hf;
      repeat (destruct Hf as [<- | Hf]; [try discriminate Hk|]);
      try contradiction;
      cbn in Ho;
      repeat (destruct Ho as [<- | Ho];
              [eexists _, _; split; [reflexivity|];
               split; [lia|reflexivity]|]);
      contradiction. }
  destruct Hopt as (n & s & -> & Hn & Hs).
  exists n, s. split; [reflexivity|]. split; [exact Hn|]. split; [exact Hs|].
  split.
  - apply (select_onChange_number PageTsx f n s st Hs Hk).
  - apply (select_onChange_number Part000 f n s st Hs Hk).
Qed.

Lemma select_onChange_maxResults_witness :
  exists st',
    select_onChange Part000
      (mkField "Max Results" "maxResults"
         [OptNum 5; OptNum 10; OptNum 15; OptNum 20; OptNum 25; OptNum 30;
          OptNum 40; OptNum 50])
      (OptNum 10) (authorized Part000) = Some st'
    /\ params st' !! "maxResults" = Some (JStr "10").
Proof.
  destruct (select_onChange_maxResults Part000
              (mkField "Max Results" "maxResults"
                 [OptNum 5; OptNum 10; OptNum 15; OptNum 20; OptNum 25;
                  OptNum 30; OptNum 40; OptNum 50])
              (OptNum 10) (authorized Part000))
    as (n & s & Ho & _ & Hs & _ & (st' & H1 & H2 & _)).
  - cbn. auto 10.
  - reflexivity.
  - cbn. auto.
  - injection Ho as <-. injection Hs as <-.
    exists st'. split; [exact H1 | exact H2].
Defined.

Lemma toISOString_instant v s :
  JSDate.toISOString v = Some s -> JSDate.iso8601_instant s = Some v.
Proof.
  unfold JSDate.toISOString, JSDate.TimeClip.
  destruct (Z.leb_spec (Z.abs v) JSDate.maxTime) as [H|]; [|discriminate].
  intros [= <-]. apply iso8601_instant_iso_of_time, H.
Qed.

(** Under the shape the form keeps, the translation yields the epoch
    literal or the ISO string of the clock moved back a week or a day. *)
Lemma publishedAfterDate_timestamp now p d :
  p !! "publishedAfter" = Some (JStr "any")
  \/ p !! "publishedAfter" = Some (JStr "week")
  \/ p !! "publishedAfter" = Some (JStr "day") ->
  publishedAfterDate now p = inr d ->
  exists s t,
    d = JStr s
    /\ JSDate.iso8601_instant s = Some t
    /\ ((s = "1970-01-01T00:00:00Z" /\ t = 0)
        \/ (JSDate.toISOString (now - 7 * 24 * 60 * 60 * 1000) = Some s
            /\ t = now - 7 * 24 * 60 * 60 * 1000)
        \/ (JSDate.toISOString (now - 24 * 60 * 60 * 1000) = Some s
            /\ t = now - 24 * 60 * 60 * 1000)).
Proof.
  unfold publishedAfterDate. intros [E | [E | E]]; rewrite E; cbn [is_str].
  - change (String.eqb "any" "week") with false.
    change (String.eqb "any" "day") with false.
    change (String.eqb "any" "any") with true. cbv iota. intros [= <-].
    exists "1970-01-01T00:00:00Z", 0. split; [reflexivity|].
    split; [reflexivity|]. left. split; reflexivity.
  - change (String.eqb "week" "week") with true. cbv iota.
    destruct (JSDate.toISOString _) as [s|] eqn:Hs; intros [= <-].
    exists s, (now - 7 * 24 * 60 * 60 * 1000). split; [reflexivity|].
    split; [apply toISOString_instant, Hs|]. right. left. auto.
  - change (String.eqb "day" "week") with false.
    change (String.eqb "day" "day") with true. cbv iota.
    destruct (JSDate.toISOString _) as [s|] eqn:Hs; intros [= <-].
    exists s, (now - 24 * 60 * 60 * 1000). split; [reflexivity|].
    split; [apply toISOString_instant, Hs|]. right. right. auto.
Qed.

Lemma run_requests_Forall_in v (P : gmap string jsval -> Prop) evs :
  (forall a ev, In ev evs -> params_shape v (params (app_state a)) ->
     Forall P (requests (app_step v a ev).2)) ->
  forall a,
    forallb (form_event v) evs = true ->
    params_shape v (params (app_state a)) ->
    Forall P (requests (run v a evs).2).
Proof.
  induction evs as [|ev evs IH]; intros Hstep a Hev Ha; [constructor|].
  rewrite run_cons. cbn [snd]. rewrite requests_app. apply Forall_app. split.
  - apply Hstep; [left; reflexivity | exact Ha].
  - cbn [forallb] in Hev. apply andb_true_iff in Hev as [He Hev].
    apply IH; [|exact Hev|].
    + intros a' ev' Hin. apply Hstep. right. exact Hin.
    + apply app_step_params_shape; assumption.
Qed.

(** X13. [page.tsx] never pages: it stores both cursors but offers no
    control that sends one.  Every request it issues, in any history of
    the form, has [pageToken] null, [part] equal to [['snippet']], a
    non-empty query string, a numeric [maxResults] from 5 to 50, and a
    [publishedAfter] that is an ISO-8601 timestamp: the epoch literal
    [1970-01-01T00:00:00Z], or [toISOString] of the clock of a
    submission of the history moved back by a week or by a day, the
    string denoting exactly that instant.  It is never undefined and
    never the symbolic value of the filter. *)
Theorem page_tsx_requests (evs : list event) :
  forallb (form_event PageTsx) evs = true ->
  Forall
    (fun req : gmap string jsval =>
       req !! "pageToken" = Some JNull
       /\ req !! "part" = Some (JArr ["snippet"])
       /\ (exists q, req !! "q" = Some (JStr q) /\ q ≠ "")
       /\ (exists n, req !! "maxResults" = Some (JNum n) /\ 5 <= n <= 50)
       /\ (exists s t,
             req !! "publishedAfter" = Some (JStr s)
             /\ JSDate.iso8601_instant s = Some t
             /\ ((s = "1970-01-01T00:00:00Z" /\ t = 0)
                 \/ exists now,
                      In (SubmitForm now) evs
                      /\ ((JSDate.toISOString (now - 7 * 24 * 60 * 60 * 1000)
                           = Some s
                           /\ t = now - 7 * 24 * 60 * 60 * 1000)
                          \/ (JSDate.toISOString (now - 24 * 60 * 60 * 1000)
                              = Some s
                              /\ t = now - 24 * 60 * 60 * 1000)))))
    (requests (run PageTsx (initial_app PageTsx) evs).2).
Proof.
  intros Hev.
  apply run_requests_Forall_in; [|exact Hev|apply initial_params_shape].
  clear Hev. intros a ev Hin Hshape.
  destruct (app_step_requests PageTsx a ev)
    as [-> | (now & e & tok & req & -> & Hb & _ & Hsub)]; [constructor|].
  destruct Hsub as [(-> & -> & Hq) | (Hv & _)]; [|discriminate Hv].
  pose proof (handleSearch_begin_request PageTsx now (app_state a) e None) as H.
  rewrite Hb in H. destruct H as (_ & _ & d & Hd & ->).
  destruct (params_shape_reserved _ _ Hshape) as [Htok Hpart].
  destruct Hshape as (_ & _ & (n & Hn & Hrange) & Hpa).
  destruct (query_filled_true _ Hq) as (q & Hq1 & Hq2).
  destruct (publishedAfterDate_timestamp _ _ _ Hpa Hd) as (s & t & -> & Hi & Hs).
  constructor; [|constructor].
  rewrite !lookup_insert_ne by discriminate.
  rewrite lookup_insert_eq, !spread_request_lookup, Htok, Hpart, Hq1, Hn.
  split; [reflexivity|]. split; [reflexivity|]. split; [eauto|].
  split; [eauto|]. exists s, t. split; [reflexivity|]. split; [exact Hi|].
  destruct Hs as [Hs | Hs]; [left; exact Hs|]. right. exists now. auto.
Qed.

Lemma page_tsx_requests_witness :
  Forall
    (fun req : gmap string jsval =>
       req !! "pageToken" = Some JNull
       /\ exists s t, req !! "publishedAfter" = Some (JStr s)
                      /\ JSDate.iso8601_instant s = Some t)
    (requests (run PageTsx (initial_app PageTsx) form_visit).2).
Proof.
  eapply Forall_impl; [apply (page_tsx_requests form_visit eq_refl)|].
  intros req (H1 & _ & _ & _ & s & t & H2 & H3 & _). eauto.
Defined.

Example form_visit_request :
  (fun req => req !! "publishedAfter")
    <$> requests (run PageTsx (initial_app PageTsx) form_visit).2
  = [Some (JStr "2023-11-07T22:13:20.000Z")].
Proof. vm_compute. reflexivity. Qed.

(* ===================================================================== *)
(** * The recency filter and [part_000] *)
(* ===================================================================== *)

Example part_000_no_recency_key :
  initial_params Part000 !! "publishedAfter" = None
  /\ forallb (fun f => negb (String.eqb (field_key f) "publishedAfter"))
       (selectFields Part000) = true.
Proof. split; reflexivity. Qed.


